(** * Shallow embedding of the ntp-proto clock-control core

    Covers [ntp-proto/src/peer.rs] (per-peer NTP state, acceptance
    checks, root distance) and [ntp-proto/src/algorithm/kalman/mod.rs]
    (leap vote, combination, the Kalman clock controller).

    Conventions:
    - an [NtpDuration] is its fixed-point count of 2^-32 s, as a [Z];
    - an [NtpTimestamp] is its 64-bit fixed-point value, as a [Z] in
      [0, 2^64);
    - [f64] arithmetic is kept abstract behind the [FloatOps] class, so
      every statement holds for IEEE doubles as much as for any other
      instance;
    - Rust panics and [std::process::exit] are the [Abort] outcome. *)

From Stdlib Require Import ZArith Lia.
From stdpp Require Import base gmap list.

Open Scope Z_scope.

(** ** Abstract [f64] *)

Class FloatOps (F : Type) := {
  f_zero : F;
  f_one : F;
  f_add : F -> F -> F;
  f_sub : F -> F -> F;
  f_mul : F -> F -> F;
  f_div : F -> F -> F;
  f_neg : F -> F;
  f_abs : F -> F;
  f_sqrt : F -> F;
  f_signum : F -> F;
  f_min : F -> F -> F;
  f_lt : F -> F -> bool;
  f_eqb : F -> F -> bool;
  f_partial_cmp : F -> F -> option comparison;
  (** [NtpDuration::from_seconds] and [NtpDuration::to_seconds] *)
  f_from_seconds : F -> Z;
  f_to_seconds : Z -> F
}.

(** ** Time types *)

Module Time.

(** Modelled from the spec: [NtpDuration] and [NtpTimestamp] of
    [time_types.rs] (not under src/). "Duration: signed fixed-point
    seconds. Supports add/sub, compare"; "Timestamp: monotonic NTP time
    point (64-bit fixed-point). Supports subtraction yielding a
    Duration." A duration is an integer count of 2^-32 s; sums and
    products are exact, division by an integer truncates towards zero as
    integer division of a fixed-point count does. *)
Definition NtpDuration := Z.
Definition NtpTimestamp := Z.

Definition FRAC : Z := 2 ^ 32.
Definition ONE : NtpDuration := FRAC.
Definition ZERO : NtpDuration := 0.

(** [NtpDuration::MIN_DISPERSION], 0.005 s in fixed point. *)
Definition MIN_DISPERSION : NtpDuration := 21474836.

Definition dur_add (a b : NtpDuration) : NtpDuration := a + b.
Definition dur_mul_i64 (a : NtpDuration) (k : Z) : NtpDuration := a * k.
Definition dur_div_i64 (a : NtpDuration) (k : Z) : NtpDuration := Z.quot a k.

(** Two's-complement reading of a 64-bit pattern. *)
Definition to_i64 (z : Z) : Z :=
  let m := z mod 2 ^ 64 in if 2 ^ 63 <=? m then m - 2 ^ 64 else m.

(** Timestamp difference: wrapping 64-bit subtraction read as signed. *)
Definition ts_sub (a b : NtpTimestamp) : NtpDuration := to_i64 (a - b).

(** Timestamp plus duration, wrapping in 64 bits. *)
Definition ts_add (a : NtpTimestamp) (d : NtpDuration) : NtpTimestamp :=
  (a + d) mod 2 ^ 64.

End Time.

Import Time.

(** ** Packet fields the core consumes *)

Module Packet.

Inductive NtpLeapIndicator := NoWarning | Leap61 | Leap59 | Unknown.

Definition leap_eqb (a b : NtpLeapIndicator) : bool :=
  match a, b with
  | NoWarning, NoWarning | Leap61, Leap61 | Leap59, Leap59 | Unknown, Unknown => true
  | _, _ => false
  end.

Definition is_synchronized (l : NtpLeapIndicator) : bool :=
  match l with Unknown => false | _ => true end.

Inductive NtpAssociationMode :=
  Reserved | SymmetricActive | SymmetricPassive | Client | Server
| Broadcast | Control | PrivateUse.

Definition mode_eqb (a b : NtpAssociationMode) : bool :=
  match a, b with
  | Reserved, Reserved | SymmetricActive, SymmetricActive
  | SymmetricPassive, SymmetricPassive | Client, Client | Server, Server
  | Broadcast, Broadcast | Control, Control | PrivateUse, PrivateUse => true
  | _, _ => false
  end.

(** Modelled from the spec: the "kiss-of-death classifier" of
    [NtpHeader] ([is_kiss], [is_kiss_rate] of [packet.rs], not under
    src/). A header is either no kiss, a kiss with rate code, or a kiss
    with another code. *)
Inductive KissCode := NotKiss | KissRate | KissOther.

(** The header fields the core reads, and those [generate_poll_message]
    writes. *)
Record NtpHeader := mkHeader {
  leap : NtpLeapIndicator;
  mode : NtpAssociationMode;
  stratum : Z;
  poll : Z;
  root_delay : NtpDuration;
  root_dispersion : NtpDuration;
  reference_id : Z;
  origin_timestamp : NtpTimestamp;
  transmit_timestamp : NtpTimestamp;
  kiss_code : KissCode
}.

Definition is_kiss (h : NtpHeader) : bool :=
  match kiss_code h with NotKiss => false | _ => true end.
Definition is_kiss_rate (h : NtpHeader) : bool :=
  match kiss_code h with KissRate => true | _ => false end.

(** Modelled from the spec: [NtpHeader::default()] / [NtpHeader::new()],
    an all-zero header, leap [NoWarning]. *)
Definition header_default : NtpHeader :=
  mkHeader NoWarning Reserved 0 0 0 0 0 0 0 NotKiss.

End Packet.

Import Packet.

(** ** [peer.rs] *)

Module PeerRs.

Definition MAX_STRATUM : Z := 16.
Definition MAX_DISTANCE : NtpDuration := ONE.

(** [multiply_by_phi]: [(duration * 15) / 1_000_000]. *)
Definition multiply_by_phi (duration : NtpDuration) : NtpDuration :=
  dur_div_i64 (dur_mul_i64 duration 15) 1000000.

Record PeerStatistics {F : Type} := mkStats {
  st_offset : NtpDuration;
  st_delay : NtpDuration;
  st_dispersion : NtpDuration;
  st_jitter : F
}.
Arguments PeerStatistics : clear implicits.
Arguments mkStats {F}.

(** [Reach]: an 8-bit shift register. *)
Definition is_reachable (r : Z) : bool := negb (r =? 0).
Definition received_packet (r : Z) : Z := Z.lor r 1.
Definition reach_poll (r : Z) : Z := (Z.shiftl r 1) mod 256.

(** [k] successive [Reach::poll] calls. *)
Definition reach_polls (k : nat) (r : Z) : Z := Nat.iter k reach_poll r.

(** [i8] addition as a release build performs it (wrapping). *)
Definition i8_wrap (z : Z) : Z := ((z + 128) mod 256) - 128.

Record Peer {F LM : Type} := mkPeer {
  last_poll_interval : Z;
  next_poll_interval : Z;
  remote_min_poll_interval : Z;
  next_expected_origin : option NtpTimestamp;
  statistics : PeerStatistics F;
  last_measurements : LM;
  last_packet : NtpHeader;
  time : NtpTimestamp;
  peer_id : Z;
  our_id : Z;
  reach : Z
}.
Arguments Peer : clear implicits.
Arguments mkPeer {F LM}.

Inductive IgnoreReason := InvalidMode | InvalidPacketTime | Kiss | TooOld.

Inductive AcceptSynchronizationError :=
  ServerUnreachable | Loop | Distance | Stratum.

Inductive Result (A E : Type) := Ok (a : A) | Err (e : E).
Arguments Ok {A E} a.
Arguments Err {A E} e.

Record PeerSnapshot {F : Type} := mkPeerSnapshot {
  ps_time : NtpTimestamp;
  ps_root_distance_without_time : NtpDuration;
  ps_stratum : Z;
  ps_statistics : PeerStatistics F
}.
Arguments PeerSnapshot : clear implicits.

Section PeerOps.
Context {F : Type} `{FloatOps F}.

(** The clock filter of [filter.rs] is not under src/ and the spec does
    not describe it: it is a parameter. [lm_step] is
    [LastMeasurements::step] (with the constant precision [0.0] the
    caller passes): the updated filter and, when the sample is fresh
    enough, the new statistics and the time of the smallest-delay
    sample. [from_packet_default] is [FilterTuple::from_packet_default]. *)
Context {LastMeasurements FilterTuple : Type}.
Variable from_packet_default :
  NtpHeader -> NtpDuration -> NtpTimestamp -> NtpTimestamp -> FilterTuple.
Variable lm_step :
  LastMeasurements -> FilterTuple -> NtpTimestamp -> NtpLeapIndicator ->
  LastMeasurements * option (PeerStatistics F * NtpTimestamp).
Variable lm_default : LastMeasurements.

Local Abbreviation Peer := (Peer F LastMeasurements).

Definition stats_default : PeerStatistics F := mkStats 0 0 0 f_zero.

Definition new (our : Z) (pid : Z) (current_system_time : NtpTimestamp) : Peer :=
  {| last_poll_interval := 2;
     next_poll_interval := 2;
     remote_min_poll_interval := 2;
     next_expected_origin := None;
     statistics := stats_default;
     last_measurements := lm_default;
     last_packet := header_default;
     time := current_system_time;
     our_id := our;
     peer_id := pid;
     reach := 0 |}.

Definition generate_poll_message (p : Peer) (current_system_time : NtpTimestamp)
  : Peer * NtpHeader :=
  let p' := {| last_poll_interval := last_poll_interval p;
               next_poll_interval := next_poll_interval p;
               remote_min_poll_interval := remote_min_poll_interval p;
               next_expected_origin := Some current_system_time;
               statistics := statistics p;
               last_measurements := last_measurements p;
               last_packet := last_packet p;
               time := time p;
               peer_id := peer_id p;
               our_id := our_id p;
               reach := reach_poll (reach p) |} in
  let packet := {| leap := leap header_default;
                   mode := Client;
                   stratum := stratum header_default;
                   poll := last_poll_interval p;
                   root_delay := root_delay header_default;
                   root_dispersion := root_dispersion header_default;
                   reference_id := reference_id header_default;
                   origin_timestamp := origin_timestamp header_default;
                   transmit_timestamp := current_system_time;
                   kiss_code := kiss_code header_default |} in
  (p', packet).

(** Root distance without the [multiply_by_phi(local_clock_time - self.time)] term. *)
Definition root_distance_without_time (p : Peer) : NtpDuration :=
  dur_add
    (dur_add
       (dur_add
          (dur_div_i64
             (Z.max MIN_DISPERSION
                (dur_add (root_delay (last_packet p)) (st_delay (statistics p))))
             2)
          (root_dispersion (last_packet p)))
       (st_dispersion (statistics p)))
    (f_from_seconds (st_jitter (statistics p))).

Definition root_distance (p : Peer) (local_clock_time : NtpTimestamp) : NtpDuration :=
  dur_add (root_distance_without_time p)
    (multiply_by_phi (ts_sub local_clock_time (time p))).

Definition message_for_system (p : Peer) (new_tuple : FilterTuple)
    (system_leap_indicator : NtpLeapIndicator)
  : Peer * Result (PeerSnapshot F) IgnoreReason :=
  let '(lm', updated) := lm_step (last_measurements p) new_tuple (time p)
                           system_leap_indicator in
  let p := {| last_poll_interval := last_poll_interval p;
              next_poll_interval := next_poll_interval p;
              remote_min_poll_interval := remote_min_poll_interval p;
              next_expected_origin := next_expected_origin p;
              statistics := statistics p;
              last_measurements := lm';
              last_packet := last_packet p;
              time := time p;
              peer_id := peer_id p;
              our_id := our_id p;
              reach := reach p |} in
  match updated with
  | None => (p, Err TooOld)
  | Some (stats, smallest_delay_time) =>
      let p := {| last_poll_interval := last_poll_interval p;
                  next_poll_interval := next_poll_interval p;
                  remote_min_poll_interval := remote_min_poll_interval p;
                  next_expected_origin := next_expected_origin p;
                  statistics := stats;
                  last_measurements := last_measurements p;
                  last_packet := last_packet p;
                  time := smallest_delay_time;
                  peer_id := peer_id p;
                  our_id := our_id p;
                  reach := reach p |} in
      (p, Ok {| ps_time := time p;
                ps_root_distance_without_time := root_distance_without_time p;
                ps_stratum := stratum (last_packet p);
                ps_statistics := statistics p |})
  end.

Definition option_ts_eqb (a b : option NtpTimestamp) : bool :=
  match a, b with
  | Some x, Some y => x =? y
  | None, None => true
  | _, _ => false
  end.

Definition handle_incoming (p : Peer) (message : NtpHeader) (recv_time : NtpTimestamp)
  : Peer * Result (PeerSnapshot F) IgnoreReason :=
  if negb (mode_eqb (mode message) Server) then (p, Err InvalidMode)
  else if negb (option_ts_eqb (Some (origin_timestamp message)) (next_expected_origin p))
  then (p, Err InvalidPacketTime)
  else if is_kiss_rate message then
    ({| last_poll_interval := last_poll_interval p;
        next_poll_interval := next_poll_interval p;
        remote_min_poll_interval :=
          Z.max (i8_wrap (remote_min_poll_interval p + 1)) (last_poll_interval p);
        next_expected_origin := next_expected_origin p;
        statistics := statistics p;
        last_measurements := last_measurements p;
        last_packet := last_packet p;
        time := time p;
        peer_id := peer_id p;
        our_id := our_id p;
        reach := reach p |}, Err Kiss)
  else if is_kiss message then (p, Err Kiss)
  else
    let p := {| last_poll_interval := last_poll_interval p;
                next_poll_interval := last_poll_interval p;
                remote_min_poll_interval := remote_min_poll_interval p;
                next_expected_origin := next_expected_origin p;
                statistics := statistics p;
                last_measurements := last_measurements p;
                last_packet := last_packet p;
                time := time p;
                peer_id := peer_id p;
                our_id := our_id p;
                reach := received_packet (reach p) |} in
    let filter_input := from_packet_default message 0 recv_time recv_time in
    message_for_system p filter_input NoWarning.

Definition accept_synchronization (p : Peer) (local_clock_time : NtpTimestamp)
    (system_poll : NtpDuration) : Result unit AcceptSynchronizationError :=
  if negb (is_synchronized (leap (last_packet p)))
     || (MAX_STRATUM <=? stratum (last_packet p))
  then Err Stratum
  else if MAX_DISTANCE + multiply_by_phi system_poll <? root_distance p local_clock_time
  then Err Distance
  else if negb (stratum (last_packet p) =? 1)
          && (reference_id (last_packet p) =? our_id p)
  then Err Loop
  else if negb (is_reachable (reach p)) then Err ServerUnreachable
  else Ok tt.

Definition get_interval_next_poll (p : Peer) (system_poll_interval : Z) : Peer * Z :=
  let last := Z.max (Z.max system_poll_interval (remote_min_poll_interval p))
                    (next_poll_interval p) in
  ({| last_poll_interval := last;
      (* [i8::saturating_add(1)] *)
      next_poll_interval := Z.min 127 (last + 1);
      remote_min_poll_interval := remote_min_poll_interval p;
      next_expected_origin := next_expected_origin p;
      statistics := statistics p;
      last_measurements := last_measurements p;
      last_packet := last_packet p;
      time := time p;
      peer_id := peer_id p;
      our_id := our_id p;
      reach := reach p |}, last).

(** Responses delivered one after the other with no poll in between. *)
Fixpoint handle_incoming_all (p : Peer) (msgs : list (NtpHeader * NtpTimestamp))
  : Peer * list (Result (PeerSnapshot F) IgnoreReason) :=
  match msgs with
  | [] => (p, [])
  | (m, t) :: rest =>
      let '(p1, r) := handle_incoming p m t in
      let '(p2, rs) := handle_incoming_all p1 rest in
      (p2, r :: rs)
  end.

(** The calls the daemon makes on one peer, in any order. *)
Inductive PeerEvent :=
| PeGetIntervalNextPoll (system_poll_interval : Z)
| PeGeneratePollMessage (current_system_time : NtpTimestamp)
| PeHandleIncoming (message : NtpHeader) (recv_time : NtpTimestamp).

Definition peer_step (p : Peer) (ev : PeerEvent) : Peer :=
  match ev with
  | PeGetIntervalNextPoll sp => fst (get_interval_next_poll p sp)
  | PeGeneratePollMessage t => fst (generate_poll_message p t)
  | PeHandleIncoming m t => fst (handle_incoming p m t)
  end.

Definition peer_run (p : Peer) (evs : list PeerEvent) : Peer := fold_left peer_step evs p.

(** [PeerSnapshot::root_distance] *)
Definition snapshot_root_distance (s : PeerSnapshot F) (local_clock_time : NtpTimestamp)
  : NtpDuration :=
  dur_add (ps_root_distance_without_time s)
    (multiply_by_phi (ts_sub local_clock_time (ps_time s))).

(** [PeerSnapshot::accept_synchronization]: only the distance check,
    the other checks are the peer's. *)
Definition snapshot_accept_synchronization (s : PeerSnapshot F)
    (local_clock_time : NtpTimestamp) (system_poll : NtpDuration)
  : Result unit AcceptSynchronizationError :=
  if MAX_DISTANCE + multiply_by_phi system_poll <? snapshot_root_distance s local_clock_time
  then Err Distance
  else Ok tt.

(** The peer with one field of its last packet or of its statistics
    replaced, the rest held equal. *)
Definition with_last_packet (p : Peer) (h : NtpHeader) : Peer :=
  {| last_poll_interval := last_poll_interval p;
     next_poll_interval := next_poll_interval p;
     remote_min_poll_interval := remote_min_poll_interval p;
     next_expected_origin := next_expected_origin p;
     statistics := statistics p;
     last_measurements := last_measurements p;
     last_packet := h;
     time := time p;
     peer_id := peer_id p;
     our_id := our_id p;
     reach := reach p |}.

Definition with_statistics (p : Peer) (st : PeerStatistics F) : Peer :=
  {| last_poll_interval := last_poll_interval p;
     next_poll_interval := next_poll_interval p;
     remote_min_poll_interval := remote_min_poll_interval p;
     next_expected_origin := next_expected_origin p;
     statistics := st;
     last_measurements := last_measurements p;
     last_packet := last_packet p;
     time := time p;
     peer_id := peer_id p;
     our_id := our_id p;
     reach := reach p |}.

Definition with_root_delay (p : Peer) (x : NtpDuration) : Peer :=
  let h := last_packet p in
  with_last_packet p
    (mkHeader (leap h) (mode h) (stratum h) (poll h) x (root_dispersion h)
       (reference_id h) (origin_timestamp h) (transmit_timestamp h) (kiss_code h)).

Definition with_root_dispersion (p : Peer) (x : NtpDuration) : Peer :=
  let h := last_packet p in
  with_last_packet p
    (mkHeader (leap h) (mode h) (stratum h) (poll h) (root_delay h) x
       (reference_id h) (origin_timestamp h) (transmit_timestamp h) (kiss_code h)).

Definition with_delay (p : Peer) (x : NtpDuration) : Peer :=
  let st := statistics p in
  with_statistics p (mkStats (st_offset st) x (st_dispersion st) (st_jitter st)).

End PeerOps.

End PeerRs.

(** ** [algorithm/kalman/mod.rs] *)

Module Kalman.

(** Rust panics ([panic!], [unwrap], [expect]) and
    [std::process::exit(code)]. *)
Inductive AbortReason := Panic | Exit (code : Z).

Inductive Outcome (A : Type) := Return (a : A) | Abort (r : AbortReason).
Arguments Return {A} a.
Arguments Abort {A} r.

Definition obind {A B} (o : Outcome A) (k : A -> Outcome B) : Outcome B :=
  match o with Return a => k a | Abort r => Abort r end.

Notation "'let*' x := o 'in' k" := (obind o (fun x => k))
  (at level 200, x name, o at level 100, k at level 200).

(** [Result::expect] / [Result::unwrap] on a fallible clock call. *)
Definition expect {A} (o : option A) : Outcome A :=
  match o with Some a => Return a | None => Abort Panic end.

(** [std::process::exit(exitcode::SOFTWARE)] *)
Definition EXIT_SOFTWARE : Z := 70.

(** Modelled from the spec ("Fixed-dimension 2-vector and 2x2 matrix"),
    [matrix.rs] is not under src/. [Matrix::new(a, b, c, d)] is row-major. *)
Record Vector {F : Type} := mkVector { v0 : F; v1 : F }.
Arguments Vector : clear implicits.
Arguments mkVector {F}.
Record Matrix {F : Type} := mkMatrix { m00 : F; m01 : F; m10 : F; m11 : F }.
Arguments Matrix : clear implicits.
Arguments mkMatrix {F}.

Record PollLimits := mkPollLimits { pl_min : Z; pl_max : Z }.

(** Modelled from the spec: [SystemConfig] (config of the crate root,
    not under src/) with "poll_limits: {min, max}, startup_panic_threshold,
    panic_threshold, accumulated_threshold (optional)". A step threshold
    is represented by its [is_within] test on a duration. *)
Record SystemConfig := mkSystemConfig {
  poll_limits : PollLimits;
  startup_panic_threshold : NtpDuration -> bool;
  panic_threshold : NtpDuration -> bool;
  accumulated_threshold : option NtpDuration
}.

(** Modelled from the spec: the fields of [AlgorithmConfig]
    ([kalman/config.rs], not under src/) that [mod.rs] reads. *)
Record AlgorithmConfig {F : Type} := mkAlgorithmConfig {
  steer_frequency_threshold : F;
  steer_frequency_leftover : F;
  steer_offset_threshold : F;
  steer_offset_leftover : F;
  jump_threshold : F;
  slew_max_frequency_offset : F;
  slew_min_duration : F
}.
Arguments AlgorithmConfig : clear implicits.
Arguments mkAlgorithmConfig {F}.

(** Modelled from the spec: [TimeSnapshot], "root delay, root
    dispersion, poll interval, accumulated steps, leap indicator". *)
Record TimeSnapshot := mkTimeSnapshot {
  poll_interval : Z;
  root_delay : NtpDuration;
  root_dispersion : NtpDuration;
  leap_indicator : NtpLeapIndicator;
  accumulated_steps : NtpDuration
}.

Definition TimeSnapshot_default : TimeSnapshot :=
  mkTimeSnapshot 0 0 0 Unknown 0.

Record StateUpdate {PeerID : Type} := mkStateUpdate {
  used_peers : option (list PeerID);
  timesnapshot : option TimeSnapshot;
  next_update : option NtpTimestamp
}.
Arguments StateUpdate : clear implicits.
Arguments mkStateUpdate {PeerID}.

Record PeerSnapshot {F Index : Type} := mkPeerSnapshot {
  index : Index;
  state : Vector F;
  uncertainty : Matrix F;
  delay : F;
  peer_uncertainty : NtpDuration;
  peer_delay : NtpDuration;
  snap_leap_indicator : NtpLeapIndicator;
  last_update : NtpTimestamp
}.
Arguments PeerSnapshot : clear implicits.
Arguments mkPeerSnapshot {F Index}.

(** Modelled from the spec: [ObservablePeerTimedata] (crate root, not
    under src/), the fields [observe] fills in. *)
Record ObservablePeerTimedata := mkObservablePeerTimedata {
  obs_offset : NtpDuration;
  obs_uncertainty : NtpDuration;
  obs_delay : NtpDuration;
  obs_remote_delay : NtpDuration;
  obs_remote_uncertainty : NtpDuration;
  obs_last_update : NtpTimestamp
}.

Record Combine {F Index : Type} := mkCombine {
  estimate : Vector F;
  c_uncertainty : Matrix F;
  peers_used : list Index;
  c_delay : NtpDuration;
  c_leap_indicator : option NtpLeapIndicator
}.
Arguments Combine : clear implicits.
Arguments mkCombine {F Index}.

(** The [NtpClock] trait. Each call may fail ([None]); the controller
    treats a failure as fatal. *)
Class NtpClock (F C : Type) := {
  clock_now : C -> option NtpTimestamp;
  clock_set_frequency : F -> C -> option C;
  clock_step_clock : NtpDuration -> C -> option C;
  clock_disable_ntp_algorithm : C -> option C;
  clock_error_estimate_update : NtpDuration -> NtpDuration -> C -> option C;
  clock_status_update : NtpLeapIndicator -> C -> option C
}.

(** The Kalman filter of one peer ([kalman/peer.rs], not under src/),
    through the methods [mod.rs] calls on it. *)
Class KalmanPeerState (F PeerState Measurement NtpPacket : Type) := {
  ps_new : PeerState;
  ps_update : SystemConfig -> AlgorithmConfig F -> Measurement -> NtpPacket ->
              PeerState -> PeerState * bool;
  ps_get_filtertime : PeerState -> option NtpTimestamp;
  ps_progress_filtertime : NtpTimestamp -> PeerState -> PeerState;
  ps_snapshot : forall {Index : Type}, Index -> PeerState -> option (PeerSnapshot F Index);
  ps_process_offset_steering : F -> PeerState -> PeerState;
  ps_process_frequency_steering : NtpTimestamp -> F -> PeerState -> PeerState;
  ps_get_desired_poll : PollLimits -> PeerState -> Z
}.

Record KalmanClockController {F C PeerID PeerState : Type}
    {EqD : EqDecision PeerID} {Cnt : @Countable PeerID EqD} := mkController {
  peers : gmap PeerID (PeerState * bool);
  clock : C;
  config : SystemConfig;
  algo_config : AlgorithmConfig F;
  ignore_before : NtpTimestamp;
  freq_offset : F;
  timedata : TimeSnapshot;
  desired_freq : F;
  in_startup : bool
}.
Arguments KalmanClockController F C PeerID PeerState {_ _}.
Arguments mkController {F C PeerID PeerState _ _}.

Section Algorithm.
Context {F : Type} `{FloatOps F}.

Definition sqr (x : F) : F := f_mul x x.

Definition mat_new (a b c d : F) : Matrix F := mkMatrix a b c d.
Definition mat_add (m n : Matrix F) : Matrix F :=
  mkMatrix (f_add (m00 m) (m00 n)) (f_add (m01 m) (m01 n))
           (f_add (m10 m) (m10 n)) (f_add (m11 m) (m11 n)).
Definition mat_mul (m n : Matrix F) : Matrix F :=
  mkMatrix (f_add (f_mul (m00 m) (m00 n)) (f_mul (m01 m) (m10 n)))
           (f_add (f_mul (m00 m) (m01 n)) (f_mul (m01 m) (m11 n)))
           (f_add (f_mul (m10 m) (m00 n)) (f_mul (m11 m) (m10 n)))
           (f_add (f_mul (m10 m) (m01 n)) (f_mul (m11 m) (m11 n))).
Definition determinant (m : Matrix F) : F :=
  f_sub (f_mul (m00 m) (m11 m)) (f_mul (m01 m) (m10 m)).
(** "inverse of a 2x2 M is (1/det(M)) adj(M)" *)
Definition inverse (m : Matrix F) : Matrix F :=
  let d := determinant m in
  mkMatrix (f_div (m11 m) d) (f_div (f_neg (m01 m)) d)
           (f_div (f_neg (m10 m)) d) (f_div (m00 m) d).
Definition vec_add (v w : Vector F) : Vector F :=
  mkVector (f_add (v0 v) (v0 w)) (f_add (v1 v) (v1 w)).
Definition vec_sub (v w : Vector F) : Vector F :=
  mkVector (f_sub (v0 v) (v0 w)) (f_sub (v1 v) (v1 w)).
Definition mat_vec (m : Matrix F) (v : Vector F) : Vector F :=
  mkVector (f_add (f_mul (m00 m) (v0 v)) (f_mul (m01 m) (v1 v)))
           (f_add (f_mul (m10 m) (v0 v)) (f_mul (m11 m) (v1 v))).

Context {Index : Type}.
Local Abbreviation Snap := (PeerSnapshot F Index).

(** The tally loop of [vote_leap]: votes for Leap59, Leap61 and
    NoWarning; [None] is the [panic!] on an [Unknown] voter. *)
Fixpoint tally (sel : list Snap) (votes_59 votes_61 votes_none : nat)
  : option (nat * nat * nat) :=
  match sel with
  | [] => Some (votes_59, votes_61, votes_none)
  | s :: rest =>
      match snap_leap_indicator s with
      | NoWarning => tally rest votes_59 votes_61 (S votes_none)
      | Leap61 => tally rest votes_59 (S votes_61) votes_none
      | Leap59 => tally rest (S votes_59) votes_61 votes_none
      | Unknown => None
      end
  end.

Definition vote_leap (selection : list Snap) : Outcome (option NtpLeapIndicator) :=
  match tally selection 0 0 0 with
  | None => Abort Panic
  | Some (votes_59, votes_61, votes_none) =>
      let len := length selection in
      Return (if Nat.ltb len (votes_none * 2) then Some NoWarning
              else if Nat.ltb len (votes_59 * 2) then Some Leap59
              else if Nat.ltb len (votes_61 * 2) then Some Leap61
              else None)
  end.

(** Spec-side count for the leap-vote statement: the number of
    snapshots of the selection voting [v]. *)
Definition votes_for (v : NtpLeapIndicator) (sel : list Snap) : nat :=
  length (List.filter (fun s => leap_eqb (snap_leap_indicator s) v) sel).

(** [used_peers.sort_by(|a, b| a.1.partial_cmp(&b.1).unwrap())]: a
    stable sort, here as a stable insertion sort; an undecided
    comparison (a NaN) is the [unwrap] panic. *)
Fixpoint insert_by_det (x : Index * F) (l : list (Index * F)) : option (list (Index * F)) :=
  match l with
  | [] => Some [x]
  | y :: l' =>
      match f_partial_cmp (snd x) (snd y) with
      | None => None
      | Some Lt => Some (x :: y :: l')
      | Some _ => y' ← insert_by_det x l'; Some (y :: y')
      end
  end.

Fixpoint sort_by_det_acc (l acc : list (Index * F)) : option (list (Index * F)) :=
  match l with
  | [] => Some acc
  | x :: l' => acc' ← insert_by_det x acc; sort_by_det_acc l' acc'
  end.

Definition sort_by_det (l : list (Index * F)) : option (list (Index * F)) :=
  sort_by_det_acc l [].

(** [Iterator::min] over durations. *)
Definition list_min (l : list Z) : option Z :=
  match l with [] => None | x :: r => Some (fold_left Z.min r x) end.

Definition combine_step (acc : Vector F * Matrix F * list (Index * F)) (snapshot : Snap)
  : Vector F * Matrix F * list (Index * F) :=
  let '(estimate, uncertainty, used_peers) := acc in
  let peer_estimate := state snapshot in
  let peer_uncertainty :=
    mat_add (Kalman.uncertainty snapshot)
      (mat_new (sqr (f_to_seconds (Kalman.peer_uncertainty snapshot))) f_zero f_zero f_zero) in
  let used_peers := used_peers ++ [(index snapshot, determinant peer_uncertainty)] in
  let mixer := inverse (mat_add uncertainty peer_uncertainty) in
  let estimate' :=
    vec_add estimate (mat_vec (mat_mul uncertainty mixer) (vec_sub peer_estimate estimate)) in
  let uncertainty' := mat_mul (mat_mul uncertainty mixer) peer_uncertainty in
  (estimate', uncertainty', used_peers).

Definition combine (selection : list Snap) : Outcome (option (Combine F Index)) :=
  match selection with
  | [] => Return None
  | first :: rest =>
      let estimate := state first in
      let uncertainty :=
        mat_add (Kalman.uncertainty first)
          (mat_new (sqr (f_to_seconds (Kalman.peer_uncertainty first))) f_zero f_zero f_zero) in
      let used_peers := [(index first, determinant uncertainty)] in
      let '(estimate, uncertainty, used_peers) :=
        fold_left combine_step rest (estimate, uncertainty, used_peers) in
      let* sorted := expect (sort_by_det used_peers) in
      let d := default (dur_add (f_from_seconds (delay first)) (peer_delay first))
                 (list_min (map (fun v => dur_add (f_from_seconds (delay v)) (peer_delay v))
                              selection)) in
      let* leap := vote_leap selection in
      Return (Some {| estimate := estimate;
                      c_uncertainty := uncertainty;
                      peers_used := map fst sorted;
                      c_delay := d;
                      c_leap_indicator := leap |})
  end.

End Algorithm.

Section Controller.
Context {F : Type} `{FloatOps F}.
Context {C : Type} `{NtpClock F C}.
Context {PeerID : Type} `{Countable PeerID}.
Context {PeerState Measurement NtpPacket : Type}
        `{KalmanPeerState F PeerState Measurement NtpPacket}.
(** [Measurement::localtime] *)
Variable localtime : Measurement -> NtpTimestamp.
(** [select::select] ([kalman/select.rs], not under src/). *)
Variable select : SystemConfig -> AlgorithmConfig F ->
                  list (PeerSnapshot F PeerID) -> list (PeerSnapshot F PeerID).

Local Abbreviation Ctrl := (KalmanClockController F C PeerID PeerState).
Local Abbreviation Update := (StateUpdate PeerID).

Definition set_peers (c : Ctrl) (p : gmap PeerID (PeerState * bool)) : Ctrl :=
  mkController p (clock c) (config c) (algo_config c) (ignore_before c)
    (freq_offset c) (timedata c) (desired_freq c) (in_startup c).
Definition set_clock (c : Ctrl) (k : C) : Ctrl :=
  mkController (peers c) k (config c) (algo_config c) (ignore_before c)
    (freq_offset c) (timedata c) (desired_freq c) (in_startup c).
Definition set_configs (c : Ctrl) (cfg : SystemConfig) (algo : AlgorithmConfig F) : Ctrl :=
  mkController (peers c) (clock c) cfg algo (ignore_before c)
    (freq_offset c) (timedata c) (desired_freq c) (in_startup c).
Definition set_freq_offset (c : Ctrl) (f : F) : Ctrl :=
  mkController (peers c) (clock c) (config c) (algo_config c) (ignore_before c)
    f (timedata c) (desired_freq c) (in_startup c).
Definition set_timedata (c : Ctrl) (t : TimeSnapshot) : Ctrl :=
  mkController (peers c) (clock c) (config c) (algo_config c) (ignore_before c)
    (freq_offset c) t (desired_freq c) (in_startup c).
Definition set_desired_freq (c : Ctrl) (f : F) : Ctrl :=
  mkController (peers c) (clock c) (config c) (algo_config c) (ignore_before c)
    (freq_offset c) (timedata c) f (in_startup c).
Definition set_in_startup (c : Ctrl) (b : bool) : Ctrl :=
  mkController (peers c) (clock c) (config c) (algo_config c) (ignore_before c)
    (freq_offset c) (timedata c) (desired_freq c) b.

Definition peer_states (c : Ctrl) : list PeerState :=
  map (fun kv => fst (snd kv)) (map_to_list (peers c)).

Definition update_peer (c : Ctrl) (id : PeerID) (measurement : Measurement)
    (packet : NtpPacket) : Ctrl * bool :=
  if ts_sub (localtime measurement) (ignore_before c) <? ZERO then (c, false)
  else
    match peers c !! id with
    | None => (c, false)
    | Some (st, usable) =>
        let '(st', accepted) :=
          ps_update (config c) (algo_config c) measurement packet st in
        (set_peers c (<[id := (st', usable)]> (peers c)), andb accepted usable)
    end.

Definition steer_frequency (c : Ctrl) (change : F) : Outcome (NtpTimestamp * Ctrl) :=
  let fo := f_sub (f_mul (f_add f_one (freq_offset c)) (f_add f_one change)) f_one in
  let c := set_freq_offset c fo in
  let* k := expect (clock_set_frequency fo (clock c)) in
  let c := set_clock c k in
  let* freq_update := expect (clock_now (clock c)) in
  let c := set_peers c
             ((fun su => (ps_process_frequency_steering freq_update change (fst su), snd su))
                <$> peers c) in
  Return (freq_update, c).

Definition check_offset_steer (c : Ctrl) (change : F) : Outcome Ctrl :=
  let change := f_from_seconds change in
  if in_startup c then
    if startup_panic_threshold (config c) change then Return c
    else Abort (Exit EXIT_SOFTWARE)
  else
    let td := timedata c in
    let c := set_timedata c
               (mkTimeSnapshot (poll_interval td) (root_delay td) (root_dispersion td)
                  (leap_indicator td) (dur_add (accumulated_steps td) change)) in
    if negb (panic_threshold (config c) change)
       || negb (match accumulated_threshold (config c) with
                | Some v => Z.abs change <? v
                | None => true
                end)
    then Abort (Exit EXIT_SOFTWARE)
    else Return c.

Definition steer_offset (c : Ctrl) (change : F) : Outcome (option NtpTimestamp * Ctrl) :=
  let* c := check_offset_steer c change in
  if f_lt (jump_threshold (algo_config c)) (f_abs change) then
    (* jump *)
    let* k := expect (clock_step_clock (f_from_seconds change) (clock c)) in
    let c := set_clock c k in
    let c := set_peers c
               ((fun su => (ps_process_offset_steering change (fst su), snd su)) <$> peers c) in
    Return (None, c)
  else
    (* start slew *)
    let freq := f_min (slew_max_frequency_offset (algo_config c))
                  (f_div (f_abs change) (slew_min_duration (algo_config c))) in
    let c := set_desired_freq c (f_mul (f_neg freq) (f_signum change)) in
    let duration := f_from_seconds (f_div (f_abs change) freq) in
    let* r := steer_frequency c (f_neg (desired_freq c)) in
    Return (Some (ts_add (fst r) duration), snd r).

Definition update_desired_poll (c : Ctrl) : Ctrl :=
  let td := timedata c in
  let p := default (pl_max (poll_limits (config c)))
             (list_min (map (ps_get_desired_poll (poll_limits (config c))) (peer_states c))) in
  set_timedata c (mkTimeSnapshot p (root_delay td) (root_dispersion td)
                    (leap_indicator td) (accumulated_steps td)).

Definition no_update (c : Ctrl) : Update :=
  {| used_peers := None; timesnapshot := Some (timedata c); next_update := None |}.

Definition update_clock (c : Ctrl) (time : NtpTimestamp) : Outcome (Update * Ctrl) :=
  if existsb (fun st => match ps_get_filtertime st with
                        | Some peertime => ts_sub time peertime <? ZERO
                        | None => false
                        end) (peer_states c)
  then Return (no_update c, c)
  else
    let c := set_peers c ((fun su => (ps_progress_filtertime time (fst su), snd su)) <$> peers c) in
    let selection :=
      select (config c) (algo_config c)
        (omap (fun (kv : PeerID * (PeerState * bool)) =>
                         let '(id, (st, usable)) := kv in
                         if usable then ps_snapshot id st else None)
              (map_to_list (peers c))) in
    let* comb := combine selection in
    match comb with
    | Some combined =>
        let freq_delta := f_sub (v1 (estimate combined)) (desired_freq c) in
        let freq_uncertainty := f_sqrt (m11 (c_uncertainty combined)) in
        let* c :=
          (if f_lt (f_mul freq_uncertainty (steer_frequency_threshold (algo_config c)))
                   (f_abs freq_delta)
           then
             let* r := steer_frequency c
                         (f_sub freq_delta
                            (f_mul (f_mul freq_uncertainty
                                      (steer_frequency_leftover (algo_config c)))
                               (f_signum freq_delta))) in
             Return (snd r)
           else Return c) in
        let offset_delta := v0 (estimate combined) in
        let offset_uncertainty := f_sqrt (m00 (c_uncertainty combined)) in
        let* r :=
          (if f_eqb (desired_freq c) f_zero
              && f_lt (f_mul offset_uncertainty (steer_offset_threshold (algo_config c)))
                      (f_abs offset_delta)
           then steer_offset c
                  (f_sub offset_delta
                     (f_mul (f_mul offset_uncertainty (steer_offset_leftover (algo_config c)))
                        (f_signum offset_delta)))
           else Return (None, c)) in
        let '(next_update, c) := r in
        let td := timedata c in
        let td := mkTimeSnapshot (poll_interval td) (c_delay combined)
                    (f_from_seconds (f_sqrt (m00 (c_uncertainty combined))))
                    (leap_indicator td) (accumulated_steps td) in
        let c := set_timedata c td in
        let* k := expect (clock_error_estimate_update (root_dispersion td) (root_delay td)
                            (clock c)) in
        let c := set_clock c k in
        let* k := (match c_leap_indicator combined with
                   | Some leap => expect (clock_status_update leap (clock c))
                   | None => Return (clock c)
                   end) in
        let c := set_clock c k in
        (* After a succesfull measurement we are out of startup. *)
        let c := set_in_startup c false in
        Return ({| used_peers := Some (peers_used combined);
                   timesnapshot := Some (timedata c);
                   next_update := next_update |}, c)
    | None => Return (no_update c, c)
    end.

Definition new (k : C) (cfg : SystemConfig) (algo : AlgorithmConfig F) : Outcome Ctrl :=
  let* k := expect (clock_disable_ntp_algorithm k) in
  let* k := expect (clock_status_update Unknown k) in
  let* k := expect (clock_set_frequency f_zero k) in
  let* now := expect (clock_now k) in
  Return {| peers := ∅;
            ignore_before := now;
            clock := k;
            config := cfg;
            algo_config := algo;
            freq_offset := f_zero;
            desired_freq := f_zero;
            timedata := TimeSnapshot_default;
            in_startup := false |}.

Definition update_config (c : Ctrl) (cfg : SystemConfig) (algo : AlgorithmConfig F) : Ctrl :=
  set_configs c cfg algo.

Definition peer_add (c : Ctrl) (id : PeerID) : Ctrl :=
  set_peers c (<[id := (ps_new, false)]> (peers c)).

Definition peer_remove (c : Ctrl) (id : PeerID) : Ctrl :=
  set_peers c (delete id (peers c)).

Definition peer_update (c : Ctrl) (id : PeerID) (usable : bool) : Ctrl :=
  match peers c !! id with
  | Some (st, _) => set_peers c (<[id := (st, usable)]> (peers c))
  | None => c
  end.

Definition peer_measurement (c : Ctrl) (id : PeerID) (measurement : Measurement)
    (packet : NtpPacket) : Outcome (Update * Ctrl) :=
  let '(c, should_update_clock) := update_peer c id measurement packet in
  let c := update_desired_poll c in
  if should_update_clock then update_clock c (localtime measurement)
  else Return (no_update c, c).

Definition time_update (c : Ctrl) : Outcome (Update * Ctrl) :=
  (* End slew *)
  let* r := steer_frequency c (desired_freq c) in
  let c := set_desired_freq (snd r) f_zero in
  Return ({| used_peers := None; timesnapshot := None; next_update := None |}, c).

(** [PeerSnapshot::offset], [offset_uncertainty] and [observe]. *)
Definition snapshot_offset (s : PeerSnapshot F PeerID) : F := v0 (state s).
Definition snapshot_offset_uncertainty (s : PeerSnapshot F PeerID) : F :=
  f_sqrt (m00 (uncertainty s)).
Definition observe (s : PeerSnapshot F PeerID) : ObservablePeerTimedata :=
  {| obs_offset := f_from_seconds (snapshot_offset s);
     obs_uncertainty := f_from_seconds (snapshot_offset_uncertainty s);
     obs_delay := f_from_seconds (delay s);
     obs_remote_delay := peer_delay s;
     obs_remote_uncertainty := peer_uncertainty s;
     obs_last_update := last_update s |}.

Definition peer_snapshot (c : Ctrl) (id : PeerID) : option ObservablePeerTimedata :=
  observe <$> (peers c !! id ≫= fun v => ps_snapshot id (fst v)).

(** The events the daemon delivers to the controller, one at a time. *)
Inductive Event :=
| EvUpdateConfig (cfg : SystemConfig) (algo : AlgorithmConfig F)
| EvPeerAdd (id : PeerID)
| EvPeerRemove (id : PeerID)
| EvPeerUpdate (id : PeerID) (usable : bool)
| EvPeerMeasurement (id : PeerID) (m : Measurement) (p : NtpPacket)
| EvTimeUpdate.

Definition step (c : Ctrl) (ev : Event) : Outcome Ctrl :=
  match ev with
  | EvUpdateConfig cfg algo => Return (update_config c cfg algo)
  | EvPeerAdd id => Return (peer_add c id)
  | EvPeerRemove id => Return (peer_remove c id)
  | EvPeerUpdate id u => Return (peer_update c id u)
  | EvPeerMeasurement id m p => let* r := peer_measurement c id m p in Return (snd r)
  | EvTimeUpdate => let* r := time_update c in Return (snd r)
  end.

Fixpoint run (c : Ctrl) (evs : list Event) : Outcome Ctrl :=
  match evs with
  | [] => Return c
  | ev :: rest => let* c := step c ev in run c rest
  end.

End Controller.

End Kalman.

(** ** [ntp-udp/src/interface_name.rs] *)

Module InterfaceName.
Import PeerRs.

(** An IP address by its numeric value ([u32] for V4, [u128] for V6). *)
Inductive IpAddr := V4 (a : Z) | V6 (a : Z).

Definition ip_eqb (a b : IpAddr) : bool :=
  match a, b with
  | V4 x, V4 y => x =? y
  | V6 x, V6 y => x =? y
  | _, _ => false
  end.

(** The parts of a [SocketAddr] [interface_name] reads. *)
Record SocketAddr := mkSocketAddr { ip : IpAddr; port : Z }.

(** [InterfaceAddress]: the name as its bytes ([String::as_bytes]). *)
Record InterfaceAddress := mkInterfaceAddress {
  iface_name : list Byte.byte;
  address : option SocketAddr
}.

Definition matches_interface (local_addr : SocketAddr) (interface : InterfaceAddress) : bool :=
  match address interface with
  | None => false
  | Some a => ip_eqb (ip a) (ip local_addr)
  end.

(** [ifrn_name[0..length].copy_from_slice(&name.as_bytes()[0..length])]
    on a zeroed [[u8; 16]]. *)
Definition copy_ifrn_name (name : list Byte.byte) : list Byte.byte :=
  let ifrn_name := repeat Byte.x00 16 in
  let length := Nat.min (List.length name) (List.length ifrn_name) in
  firstn length name ++ skipn length ifrn_name.

(** [interface_name], given what [getifaddrs()] returned: the error it
    failed with, or the interfaces its iterator yields, in order. *)
Definition interface_name {E : Type} (ifaddrs : Result (list InterfaceAddress) E)
    (local_addr : SocketAddr) : Result (option (list Byte.byte)) E :=
  match ifaddrs with
  | Err e => Err e
  | Ok interfaces =>
      match List.find (matches_interface local_addr) interfaces with
      | Some interface => Ok (Some (copy_ifrn_name (iface_name interface)))
      | None => Ok None
      end
  end.

(** [to_socket_addr] on an [AF_INET] address. The [sockaddr_in] holds
    the port and the address in network byte order: [p0 p1] and
    [b0 b1 b2 b3] are their bytes as they lie in memory. The host reads
    [sin_port] and [s_addr] as integers in its own byte order. *)
Inductive Endian := LittleEndian | BigEndian.

Definition load_u16 (e : Endian) (p0 p1 : Z) : Z :=
  match e with
  | LittleEndian => p0 + 256 * p1
  | BigEndian => p1 + 256 * p0
  end.

Definition load_u32 (e : Endian) (b0 b1 b2 b3 : Z) : Z :=
  match e with
  | LittleEndian => b0 + 256 * (b1 + 256 * (b2 + 256 * b3))
  | BigEndian => b3 + 256 * (b2 + 256 * (b1 + 256 * b0))
  end.

(** [u32::to_le_bytes] *)
Definition to_le_bytes (x : Z) : list Z :=
  [x mod 256; (x / 256) mod 256; (x / 65536) mod 256; (x / 16777216) mod 256].

(** [u32::from(Ipv4Addr::from(octets))]: the octets read big-endian. *)
Definition ipv4_from_octets (octets : list Z) : IpAddr :=
  match octets with
  | [a; b; c; d] => V4 (d + 256 * (c + 256 * (b + 256 * a)))
  | _ => V4 0
  end.

Definition to_socket_addr_v4 (e : Endian) (p0 p1 b0 b1 b2 b3 : Z) : SocketAddr :=
  {| ip := ipv4_from_octets (to_le_bytes (load_u32 e b0 b1 b2 b3));
     port := load_u16 e p0 p1 |}.

End InterfaceName.

(** ** Concrete instances for evaluating the model on sample inputs *)

Module Concrete.
Import PeerRs Kalman.

(** Integer stand-in for [f64]. *)
#[export] Instance Z_float : FloatOps Z := {|
  f_zero := 0; f_one := 1;
  f_add := Z.add; f_sub := Z.sub; f_mul := Z.mul; f_div := Z.div;
  f_neg := Z.opp; f_abs := Z.abs; f_sqrt := Z.sqrt; f_signum := Z.sgn;
  f_min := Z.min; f_lt := Z.ltb; f_eqb := Z.eqb;
  f_partial_cmp := fun a b => Some (Z.compare a b);
  f_from_seconds := fun x => x; f_to_seconds := fun x => x
|}.

(** A fake clock, as the tests use: a fixed [now] and a log of calls. *)
Inductive ClockCall :=
| CallSetFrequency (f : Z)
| CallStepClock (d : NtpDuration)
| CallDisableNtpAlgorithm
| CallErrorEstimateUpdate (dispersion delay : NtpDuration)
| CallStatusUpdate (l : NtpLeapIndicator).

Record TestClock := mkTestClock { tc_now : NtpTimestamp; tc_log : list ClockCall }.

Definition tc_record (k : TestClock) (e : ClockCall) : option TestClock :=
  Some (mkTestClock (tc_now k) (tc_log k ++ [e])).

#[export] Instance test_clock : NtpClock Z TestClock := {|
  clock_now := fun k => Some (tc_now k);
  clock_set_frequency := fun f k => tc_record k (CallSetFrequency f);
  clock_step_clock := fun d k => tc_record k (CallStepClock d);
  clock_disable_ntp_algorithm := fun k => tc_record k CallDisableNtpAlgorithm;
  clock_error_estimate_update := fun a b k => tc_record k (CallErrorEstimateUpdate a b);
  clock_status_update := fun l k => tc_record k (CallStatusUpdate l)
|}.

(** A peer filter that only knows its desired poll interval. *)
Record TestPeerState := mkTestPeerState { tps_poll : Z }.

#[export] Instance test_peer_state : KalmanPeerState Z TestPeerState NtpTimestamp unit := {|
  ps_new := mkTestPeerState 6;
  ps_update := fun _ _ _ _ st => (st, true);
  ps_get_filtertime := fun _ => None;
  ps_progress_filtertime := fun _ st => st;
  ps_snapshot := fun _ idx _ =>
    Some (mkPeerSnapshot idx (mkVector 0 0) (mkMatrix 1 0 0 1) 0 0 0 NoWarning 0);
  ps_process_offset_steering := fun _ st => st;
  ps_process_frequency_steering := fun _ _ st => st;
  ps_get_desired_poll := fun lim st => Z.max (pl_min lim) (Z.min (pl_max lim) (tps_poll st))
|}.

Definition test_config (max_poll : Z) : SystemConfig :=
  mkSystemConfig (mkPollLimits 4 max_poll) (fun _ => true) (fun _ => true) None.

Definition test_algo : AlgorithmConfig Z := mkAlgorithmConfig 1 0 1 0 1 1 1.

Definition test_select (_ : SystemConfig) (_ : AlgorithmConfig Z)
    (l : list (PeerSnapshot Z nat)) : list (PeerSnapshot Z nat) := l.

Abbreviation TestCtrl := (KalmanClockController Z TestClock nat TestPeerState).

(** A controller built by [new] on a clock reading 1000, then driven by
    [evs]; measurements are their local time. *)
Definition test_run (evs : list (Event (PeerID := nat) (Measurement := NtpTimestamp)
                                      (NtpPacket := unit))) : Outcome TestCtrl :=
  obind (new (mkTestClock 1000 []) (test_config 10) test_algo)
        (fun c => run (fun m => m) test_select c evs).

(** The clock filter of a peer as a single-slot filter that always
    accepts the sample. *)
Definition test_lm_step (_ : unit) (_ : unit) (t : NtpTimestamp) (_ : NtpLeapIndicator)
  : unit * option (PeerStatistics Z * NtpTimestamp) :=
  (tt, Some (stats_default, t)).

Definition test_from_packet (_ : NtpHeader) (_ : NtpDuration) (_ _ : NtpTimestamp) : unit := tt.

Abbreviation TestPeer := (PeerRs.Peer Z unit).

Definition server_reply (origin : NtpTimestamp) (k : KissCode) : NtpHeader :=
  mkHeader NoWarning Server 2 0 0 0 5 origin 0 k.

(** Sample peers for [peer.rs]. *)
Definition fresh_peer : TestPeer := PeerRs.new tt 0 0 0.

Definition polled_peer : TestPeer := fst (generate_poll_message fresh_peer 5).

(** A peer after [get_interval_next_poll] with a system poll interval
    of 6, then a poll sent at time 5. *)
Definition polled_peer_long_interval : TestPeer :=
  fst (generate_poll_message (fst (get_interval_next_poll fresh_peer 6)) 5).

(** A peer that passes every check but the distance one, with a root
    distance of exactly one second at time 0. *)
Definition boundary_peer : TestPeer :=
  mkPeer 2 2 2 None stats_default tt
    (mkHeader NoWarning Server 2 0 0 (ONE - 10737418) 5 0 0 NotKiss) 0 0 0 1.

(** Sample inputs for [kalman/mod.rs]. *)
Definition snap_with_leap (i : nat) (l : NtpLeapIndicator) : PeerSnapshot Z nat :=
  mkPeerSnapshot i (mkVector 0 0) (mkMatrix 1 0 0 1) 0 0 0 l 0.

Abbreviation TestEvent := (Event (F := Z) (PeerID := nat) (Measurement := NtpTimestamp)
                                 (NtpPacket := unit)).

(** The controller [new] builds on a clock reading 1000. *)
Definition test_ctrl0 : TestCtrl :=
  mkController ∅
    (mkTestClock 1000 [CallDisableNtpAlgorithm; CallStatusUpdate Unknown; CallSetFrequency 0])
    (test_config 10) test_algo 1000 0 TimeSnapshot_default 0 false.

(** Add a peer, mark it usable and deliver one measurement for it. *)
Definition startup_events : list TestEvent :=
  [EvPeerAdd 7%nat; EvPeerUpdate 7%nat true; EvPeerMeasurement 7%nat 2000 tt].

(** A peer filter that keeps the time it was last moved to. *)
Record TimedPeerState := mkTimedPeerState { tp_time : NtpTimestamp }.

#[export] Instance timed_peer_state : KalmanPeerState Z TimedPeerState NtpTimestamp unit := {|
  ps_new := mkTimedPeerState 0;
  ps_update := fun _ _ m _ _ => (mkTimedPeerState m, true);
  ps_get_filtertime := fun st => Some (tp_time st);
  ps_progress_filtertime := fun t _ => mkTimedPeerState t;
  ps_snapshot := fun _ idx st =>
    Some (mkPeerSnapshot idx (mkVector 0 0) (mkMatrix 1 0 0 1) 0 0 0 NoWarning (tp_time st));
  ps_process_offset_steering := fun _ st => st;
  ps_process_frequency_steering := fun _ _ st => st;
  ps_get_desired_poll := fun lim _ => pl_max lim
|}.

(** A controller whose only peer's filter is at time 2000. *)
Definition timed_ctrl : KalmanClockController Z TestClock nat TimedPeerState :=
  mkController {[0%nat := (mkTimedPeerState 2000, true)]} (mkTestClock 1000 [])
    (test_config 10) test_algo 0 0 TimeSnapshot_default 0 false.

(** A controller in the middle of a slew, with one usable peer whose
    snapshot puts the offset at 5. *)
Definition slewing_ctrl : TestCtrl :=
  mkController {[0%nat := (mkTestPeerState 6, true)]} (mkTestClock 1000 [])
    (test_config 10) test_algo 0 0 TimeSnapshot_default 1 false.

(** A controller whose only peer is not usable. *)
Definition unusable_ctrl : TestCtrl :=
  mkController {[0%nat := (mkTestPeerState 6, false)]} (mkTestClock 1000 [])
    (test_config 10) test_algo 0 0 TimeSnapshot_default 0 false.

(** A controller past startup with an accumulated threshold of 10 that
    has already stepped by 100 in total. *)
Definition accumulated_ctrl : TestCtrl :=
  mkController ∅ (mkTestClock 1000 [])
    (mkSystemConfig (mkPollLimits 4 10) (fun _ => true) (fun _ => true) (Some 10))
    test_algo 0 0 (mkTimeSnapshot 0 0 0 Unknown 100) 0 false.

(** Snapshots with distinct delays: [delay + peer_delay] is 8 and 3. *)
Definition snap_with_delay (i : nat) (d pd : Z) : PeerSnapshot Z nat :=
  mkPeerSnapshot i (mkVector 0 0) (mkMatrix 1 0 0 1) d 0 pd NoWarning 0.

(** The bytes of the interface names "eth0" and "lo". *)
Definition eth0_name : list Byte.byte := [Byte.x65; Byte.x74; Byte.x68; Byte.x30].
Definition lo_name : list Byte.byte := [Byte.x6c; Byte.x6f].

(** [getifaddrs] on a host with eth0 at 10.0.0.1 and lo at 127.0.0.1. *)
Definition sample_interfaces : list InterfaceName.InterfaceAddress :=
  [InterfaceName.mkInterfaceAddress eth0_name
     (Some (InterfaceName.mkSocketAddr (InterfaceName.V4 167772161) 0));
   InterfaceName.mkInterfaceAddress lo_name
     (Some (InterfaceName.mkSocketAddr (InterfaceName.V4 2130706433) 0))].

End Concrete.

(** * Theorems *)

(** ** [peer.rs] *)

Module PeerFacts.
Import PeerRs.

Section PeerTheorems.
Context {F : Type} `{FloatOps F}.
Context {LM FT : Type}.
Variable from_packet_default : NtpHeader -> NtpDuration -> NtpTimestamp -> NtpTimestamp -> FT.
Variable lm_step : LM -> FT -> NtpTimestamp -> NtpLeapIndicator ->
                   LM * option (PeerStatistics F * NtpTimestamp).

Local Abbreviation handle := (handle_incoming from_packet_default lm_step).

Lemma message_for_system_origin (p : Peer F LM) t l :
  next_expected_origin (fst (message_for_system lm_step p t l)) = next_expected_origin p.
Proof.
  unfold message_for_system.
  destruct (lm_step _ _ _ _) as [lm' [[st tm]|]]; reflexivity.
Qed.

Lemma handle_incoming_origin (p : Peer F LM) msg rt :
  next_expected_origin (fst (handle p msg rt)) = next_expected_origin p.
Proof.
  unfold handle_incoming.
  destruct (negb (mode_eqb _ _)); [reflexivity|].
  destruct (negb (option_ts_eqb _ _)); [reflexivity|].
  destruct (is_kiss_rate msg); [reflexivity|].
  destruct (is_kiss msg); [reflexivity|].
  rewrite message_for_system_origin. reflexivity.
Qed.

(** C2 (amended): [next_expected_origin] is [None] for a new peer and
    [Some t] after a poll sent at [t]; [handle_incoming] never changes
    it, also when it accepts the response. *)
Theorem next_expected_origin_lifecycle :
  (forall (lm0 : LM) our pid t, next_expected_origin (PeerRs.new lm0 our pid t) = None) /\
  (forall (p : Peer F LM) t, next_expected_origin (fst (generate_poll_message p t)) = Some t) /\
  (forall (p : Peer F LM) msg rt,
      next_expected_origin (fst (handle p msg rt)) = next_expected_origin p).
Proof.
  split; [reflexivity|]. split; [reflexivity|].
  apply handle_incoming_origin.
Qed.

(** C10: with no poll outstanding ([next_expected_origin = None]), every
    server-mode packet is rejected with [InvalidPacketTime] and the peer
    is left as it was; so a run of responses with no poll in between
    accepts none of them. *)
Theorem handle_incoming_no_poll_outstanding :
  (forall (p : Peer F LM) msg rt,
      next_expected_origin p = None -> mode msg = Server ->
      handle p msg rt = (p, Err InvalidPacketTime)) /\
  (forall (p : Peer F LM) msgs,
      next_expected_origin p = None ->
      fst (handle_incoming_all from_packet_default lm_step p msgs) = p /\
      Forall (fun r => exists e, r = Err e) (snd (handle_incoming_all from_packet_default lm_step p msgs))).
Proof.
  assert (Hone : forall (p : Peer F LM) msg rt,
             next_expected_origin p = None ->
             fst (handle p msg rt) = p /\ exists e, snd (handle p msg rt) = Err e).
  { intros p msg rt Hn. unfold handle_incoming. rewrite Hn.
    destruct (mode_eqb (mode msg) Server); simpl; eauto. }
  split.
  - intros p msg rt Hn Hm. unfold handle_incoming. rewrite Hn, Hm. reflexivity.
  - intros p msgs Hn. induction msgs as [|[m t] rest IH]; simpl.
    + split; [reflexivity | constructor].
    + destruct (Hone p m t Hn) as [Hp [e He]].
      destruct (handle p m t) as [p1 r] eqn:Eh. simpl in Hp, He. subst p1 r.
      destruct (handle_incoming_all from_packet_default lm_step p rest) as [p2 rs] eqn:Ea.
      simpl in *. destruct IH as [IH1 IH2]. split; [exact IH1|].
      constructor; eauto.
Qed.

(** C4: for a peer that passes the stratum, loop and reachability
    checks, [accept_synchronization] succeeds when the root distance
    equals [MAX_DISTANCE + multiply_by_phi(system_poll)] and fails with
    [Distance] when it is strictly greater. *)
Theorem accept_synchronization_distance_boundary (p : Peer F LM) t system_poll :
  is_synchronized (leap (last_packet p)) = true ->
  stratum (last_packet p) < MAX_STRATUM ->
  ~ (stratum (last_packet p) <> 1 /\ reference_id (last_packet p) = our_id p) ->
  is_reachable (reach p) = true ->
  (root_distance p t = MAX_DISTANCE + multiply_by_phi system_poll ->
   accept_synchronization p t system_poll = Ok tt) /\
  (MAX_DISTANCE + multiply_by_phi system_poll < root_distance p t ->
   accept_synchronization p t system_poll = Err Distance).
Proof.
  intros Hsync Hstr Hloop Hreach.
  assert (Hs : negb (is_synchronized (leap (last_packet p)))
               || (MAX_STRATUM <=? stratum (last_packet p)) = false).
  { rewrite Hsync. simpl. apply Z.leb_gt. exact Hstr. }
  unfold accept_synchronization. rewrite Hs.
  split; intros Hd.
  - rewrite Hd, Z.ltb_irrefl.
    assert (Hl : negb (stratum (last_packet p) =? 1)
                 && (reference_id (last_packet p) =? our_id p) = false).
    { destruct (stratum (last_packet p) =? 1) eqn:E1; [reflexivity|].
      destruct (reference_id (last_packet p) =? our_id p) eqn:E2; [|reflexivity].
      exfalso. apply Hloop. split; [apply Z.eqb_neq; exact E1 | apply Z.eqb_eq; exact E2]. }
    rewrite Hl, Hreach. reflexivity.
  - apply Z.ltb_lt in Hd. rewrite Hd. reflexivity.
Qed.

(** C5 (amended): a rate kiss with the expected origin is rejected with
    [Kiss]; [remote_min_poll_interval] becomes
    [max(remote_min_poll_interval + 1, last_poll_interval)], so it rises
    by at least one; reach, statistics and the filter are unchanged.
    (For an [i8] interval below 127, where [+ 1] does not overflow.) *)
Theorem handle_incoming_kiss_rate (p : Peer F LM) msg rt :
  mode msg = Server ->
  next_expected_origin p = Some (origin_timestamp msg) ->
  is_kiss_rate msg = true ->
  -128 <= remote_min_poll_interval p < 127 ->
  snd (handle p msg rt) = Err Kiss /\
  remote_min_poll_interval (fst (handle p msg rt)) =
    Z.max (remote_min_poll_interval p + 1) (last_poll_interval p) /\
  remote_min_poll_interval p + 1 <= remote_min_poll_interval (fst (handle p msg rt)) /\
  reach (fst (handle p msg rt)) = reach p /\
  statistics (fst (handle p msg rt)) = statistics p /\
  last_measurements (fst (handle p msg rt)) = last_measurements p.
Proof.
  intros Hm Ho Hk Hr.
  unfold handle_incoming. rewrite Hm, Ho, Hk. simpl. rewrite Z.eqb_refl. simpl.
  assert (Hw : i8_wrap (remote_min_poll_interval p + 1) = remote_min_poll_interval p + 1).
  { unfold i8_wrap. rewrite Z.mod_small; lia. }
  rewrite Hw. repeat split; lia.
Qed.

Lemma multiply_by_phi_mono a b : a <= b -> multiply_by_phi a <= multiply_by_phi b.
Proof.
  intros Hab. unfold multiply_by_phi, dur_div_i64, dur_mul_i64.
  apply Z.quot_le_mono; lia.
Qed.

Lemma half_max_mono a b : a <= b ->
  dur_div_i64 (Z.max MIN_DISPERSION a) 2 <= dur_div_i64 (Z.max MIN_DISPERSION b) 2.
Proof.
  intros Hab. unfold dur_div_i64. apply Z.quot_le_mono; lia.
Qed.

(** C3 (amended): the root distance is non-decreasing in the time since
    the last update, in the packet's root delay and in the smoothed
    delay, and strictly increasing in the packet's root dispersion, all
    else held equal. *)
Theorem root_distance_monotone (p : Peer F LM) t :
  (forall t1 t2, ts_sub t1 (time p) <= ts_sub t2 (time p) ->
     root_distance p t1 <= root_distance p t2) /\
  (forall a b, a <= b -> root_distance (with_root_delay p a) t <= root_distance (with_root_delay p b) t) /\
  (forall a b, a <= b -> root_distance (with_delay p a) t <= root_distance (with_delay p b) t) /\
  (forall a b, a < b ->
     root_distance (with_root_dispersion p a) t < root_distance (with_root_dispersion p b) t).
Proof.
  unfold root_distance, root_distance_without_time, dur_add. repeat split.
  - intros t1 t2 Ht. pose proof (multiply_by_phi_mono _ _ Ht). lia.
  - intros a b Hab. simpl.
    pose proof (half_max_mono (a + st_delay (statistics p)) (b + st_delay (statistics p))).
    unfold dur_add in *. lia.
  - intros a b Hab. simpl.
    pose proof (half_max_mono (root_delay (last_packet p) + a) (root_delay (last_packet p) + b)).
    unfold dur_add in *. lia.
  - intros a b Hab. simpl. lia.
Qed.

End PeerTheorems.

End PeerFacts.

Module PeerExamples.
Import PeerRs PeerFacts Concrete.

(** C2 counterexample: after a poll at time 5, a matching server reply
    is accepted ([Ok]) and [next_expected_origin] is still [Some 5]. *)
Lemma next_expected_origin_kept_after_accept :
  let r := handle_incoming test_from_packet test_lm_step polled_peer (server_reply 5 NotKiss) 9 in
  (exists s, snd r = Ok s) /\ next_expected_origin (fst r) = Some 5.
Proof. split; [eexists; reflexivity | reflexivity]. Qed.

(** C3 counterexample: one more unit of elapsed time, or of root delay,
    leaves the root distance unchanged. *)
Lemma root_distance_not_strict :
  ts_sub 0 (time fresh_peer) < ts_sub 1 (time fresh_peer) /\
  root_distance fresh_peer 1 = root_distance fresh_peer 0 /\
  root_distance (with_root_delay fresh_peer 1) 0 = root_distance (with_root_delay fresh_peer 0) 0.
Proof. vm_compute. repeat split; reflexivity. Qed.

Lemma root_distance_monotone_witness :
  root_distance fresh_peer 0 <= root_distance fresh_peer 1 /\
  root_distance (with_root_dispersion fresh_peer 0) 0 < root_distance (with_root_dispersion fresh_peer 1) 0.
Proof.
  destruct (root_distance_monotone fresh_peer 0) as [Ht [_ [_ Hd]]].
  split.
  - apply Ht. vm_compute. discriminate.
  - apply Hd. lia.
Defined.

Lemma accept_synchronization_distance_boundary_witness :
  root_distance boundary_peer 0 = MAX_DISTANCE + multiply_by_phi 0 /\
  accept_synchronization boundary_peer 0 0 = Ok tt.
Proof.
  assert (Hd : root_distance boundary_peer 0 = MAX_DISTANCE + multiply_by_phi 0)
    by (vm_compute; reflexivity).
  split; [exact Hd|].
  apply (accept_synchronization_distance_boundary boundary_peer 0 0).
  - reflexivity.
  - vm_compute. reflexivity.
  - vm_compute. intros [_ Hr]. discriminate Hr.
  - reflexivity.
  - exact Hd.
Defined.

(** C5 counterexample: a rate kiss raises [remote_min_poll_interval]
    from 2 to 6 (the last poll interval), not to 3. *)
Lemma kiss_rate_raises_to_last_poll :
  remote_min_poll_interval polled_peer_long_interval = 2 /\
  remote_min_poll_interval
    (fst (handle_incoming test_from_packet test_lm_step polled_peer_long_interval
            (server_reply 5 KissRate) 9)) = 6.
Proof. split; reflexivity. Qed.

Lemma handle_incoming_kiss_rate_witness :
  snd (handle_incoming test_from_packet test_lm_step polled_peer_long_interval
         (server_reply 5 KissRate) 9) = Err Kiss.
Proof.
  assert (Hr : -128 <= remote_min_poll_interval polled_peer_long_interval < 127)
    by (vm_compute; split; [discriminate | reflexivity]).
  exact (proj1 (handle_incoming_kiss_rate test_from_packet test_lm_step
                  polled_peer_long_interval (server_reply 5 KissRate) 9
                  eq_refl eq_refl eq_refl Hr)).
Defined.

Lemma handle_incoming_no_poll_outstanding_witness :
  handle_incoming test_from_packet test_lm_step fresh_peer (server_reply 5 NotKiss) 9
  = (fresh_peer, Err InvalidPacketTime).
Proof.
  apply (proj1 (handle_incoming_no_poll_outstanding test_from_packet test_lm_step)).
  - reflexivity.
  - reflexivity.
Defined.

End PeerExamples.

(** ** [algorithm/kalman/mod.rs] *)

Module KalmanFacts.
Import Kalman.

Section AlgorithmTheorems.
Context {F : Type} `{FloatOps F}.
Context {Index : Type}.
Local Abbreviation Snap := (PeerSnapshot F Index).

Lemma tally_counts (sel : list Snap) a b c :
  Forall (fun s => snap_leap_indicator s <> Unknown) sel ->
  tally sel a b c =
    Some (a + votes_for Leap59 sel, b + votes_for Leap61 sel, c + votes_for NoWarning sel)%nat.
Proof.
  revert a b c. induction sel as [|s rest IH]; intros a b c Hall.
  - unfold votes_for. simpl. repeat f_equal; lia.
  - inversion Hall as [|? ? Hs Hrest]; subst.
    unfold votes_for. simpl.
    destruct (snap_leap_indicator s); simpl; [| | | contradiction].
    + rewrite IH by exact Hrest. unfold votes_for. simpl. repeat f_equal; lia.
    + rewrite IH by exact Hrest. unfold votes_for. simpl. repeat f_equal; lia.
    + rewrite IH by exact Hrest. unfold votes_for. simpl. repeat f_equal; lia.
Qed.

Lemma votes_partition (sel : list Snap) :
  Forall (fun s => snap_leap_indicator s <> Unknown) sel ->
  (votes_for Leap59 sel + votes_for Leap61 sel + votes_for NoWarning sel = length sel)%nat /\
  votes_for Unknown sel = 0%nat.
Proof.
  induction sel as [|s rest IH]; intros Hall; [split; reflexivity|].
  inversion Hall as [|? ? Hs Hrest]; subst.
  destruct (IH Hrest) as [IH1 IH2]. unfold votes_for in *. simpl.
  destruct (snap_leap_indicator s); simpl; [| | | contradiction]; split; lia.
Qed.

(** C6: on a non-empty selection without [Unknown] voters, [vote_leap]
    returns [Some v] exactly when the votes for [v] are a strict
    majority, and [None] exactly when no value has a strict majority. *)
Theorem vote_leap_strict_majority (sel : list Snap) :
  sel <> [] ->
  Forall (fun s => snap_leap_indicator s <> Unknown) sel ->
  (forall v, vote_leap sel = Return (Some v) <-> (length sel < votes_for v sel * 2)%nat) /\
  (vote_leap sel = Return None <-> forall v, ~ (length sel < votes_for v sel * 2)%nat).
Proof.
  intros _ Hall.
  destruct (votes_partition sel Hall) as [Hsum Hunk].
  unfold vote_leap. rewrite (tally_counts sel 0 0 0 Hall). simpl.
  set (n59 := votes_for Leap59 sel) in *.
  set (n61 := votes_for Leap61 sel) in *.
  set (nn := votes_for NoWarning sel) in *.
  set (len := length sel) in *.
  destruct (Nat.ltb_spec len (nn * 2)) as [Hn|Hn];
  [|destruct (Nat.ltb_spec len (n59 * 2)) as [H59|H59];
  [|destruct (Nat.ltb_spec len (n61 * 2)) as [H61|H61]]];
  split; try intros v; try (destruct v; split; intros Hv;
    first [ reflexivity | injection Hv as Hv; discriminate Hv
          | exfalso; subst n59 n61 nn len; lia | lia
          | exfalso; rewrite Hunk in Hv; lia ]).
  all: split; intros Hv.
  all: try discriminate Hv.
  all: try (exfalso; apply (Hv NoWarning); lia).
  all: try (exfalso; apply (Hv Leap59); lia).
  all: try (exfalso; apply (Hv Leap61); lia).
  all: try reflexivity.
  intros v Hlt. destruct v; fold n59 n61 nn len in Hlt; [lia|lia|lia|].
  rewrite Hunk in Hlt. lia.
Qed.

(** C7: combining a single snapshot returns its state unchanged as the
    estimate, its uncertainty plus [diag(remote_dispersion^2, 0)], its
    own index as the used peers and [delay + peer_delay] as delay. *)
Theorem combine_singleton (s : Snap) :
  snap_leap_indicator s <> Unknown ->
  exists c, combine [s] = Return (Some c) /\
    estimate c = state s /\
    c_uncertainty c =
      mat_add (uncertainty s)
        (mat_new (sqr (f_to_seconds (peer_uncertainty s))) f_zero f_zero f_zero) /\
    peers_used c = [index s] /\
    c_delay c = dur_add (f_from_seconds (delay s)) (peer_delay s).
Proof.
  intros Hs. unfold combine, vote_leap. simpl.
  destruct (snap_leap_indicator s); [| | | contradiction];
    simpl; eexists; repeat split.
Qed.

End AlgorithmTheorems.

End KalmanFacts.

Module ControllerFacts.
Import Kalman.

Section ControllerTheorems.
Context {F : Type} `{FloatOps F}.
Context {C : Type} `{NtpClock F C}.
Context {PeerID : Type} `{Countable PeerID}.
Context {PeerState Measurement NtpPacket : Type}
        `{KalmanPeerState F PeerState Measurement NtpPacket}.
Variable localtime : Measurement -> NtpTimestamp.
Variable select : SystemConfig -> AlgorithmConfig F ->
                  list (PeerSnapshot F PeerID) -> list (PeerSnapshot F PeerID).

Local Abbreviation Ctrl := (KalmanClockController F C PeerID PeerState).

Ltac obind_inv H :=
  match type of H with
  | obind ?o _ = Return _ =>
      let r := fresh "r" in
      let E := fresh "E" in
      destruct o as [r|?] eqn:E; cbn [obind] in H; [|discriminate H]
  end.

Lemma steer_frequency_in_startup (c : Ctrl) ch r :
  steer_frequency c ch = Return r -> in_startup (snd r) = in_startup c.
Proof.
  unfold steer_frequency. intros Hs.
  obind_inv Hs. obind_inv Hs. injection Hs as <-. reflexivity.
Qed.

Lemma check_offset_steer_in_startup (c : Ctrl) ch c' :
  check_offset_steer c ch = Return c' -> in_startup c' = in_startup c.
Proof.
  unfold check_offset_steer. intros Hc.
  destruct (in_startup c) eqn:Ei.
  - destruct (startup_panic_threshold _ _); [|discriminate Hc].
    injection Hc as <-. exact Ei.
  - destruct (_ || _); [discriminate Hc|]. injection Hc as <-. exact Ei.
Qed.

Lemma steer_offset_in_startup (c : Ctrl) ch r :
  steer_offset c ch = Return r -> in_startup (snd r) = in_startup c.
Proof.
  unfold steer_offset. intros Hs. obind_inv Hs.
  apply check_offset_steer_in_startup in E.
  destruct (f_lt _ _).
  - obind_inv Hs. injection Hs as <-. exact E.
  - obind_inv Hs. apply steer_frequency_in_startup in E0.
    injection Hs as <-. simpl. rewrite E0. exact E.
Qed.

Lemma update_clock_in_startup (c : Ctrl) t r :
  in_startup c = false -> update_clock select c t = Return r -> in_startup (snd r) = false.
Proof.
  intros Hi. unfold update_clock.
  destruct (existsb _ _).
  - intros Hu. injection Hu as <-. exact Hi.
  - intros Hu. obind_inv Hu. destruct r0 as [combined|].
    + obind_inv Hu.
      assert (E1 : in_startup r0 = false).
      { destruct (f_lt _ _) in E0.
        - obind_inv E0. apply steer_frequency_in_startup in E1.
          injection E0 as <-. rewrite E1. exact Hi.
        - injection E0 as <-. exact Hi. }
      obind_inv Hu.
      destruct r1 as [nu c1]. obind_inv Hu. obind_inv Hu.
      injection Hu as <-. reflexivity.
    + injection Hu as <-. exact Hi.
Qed.

Lemma peer_measurement_in_startup (c : Ctrl) id m p r :
  in_startup c = false -> peer_measurement localtime select c id m p = Return r ->
  in_startup (snd r) = false.
Proof.
  intros Hi. unfold peer_measurement.
  destruct (update_peer localtime c id m p) as [c1 b] eqn:Eu.
  assert (Hc1 : in_startup c1 = false).
  { unfold update_peer in Eu.
    destruct (_ <? _); [injection Eu as <- _; exact Hi|].
    destruct (peers c !! id) as [[st u]|]; [|injection Eu as <- _; exact Hi].
    destruct (ps_update _ _ _ _ _). injection Eu as <- _. exact Hi. }
  destruct b.
  - apply update_clock_in_startup. exact Hc1.
  - intros Hr. injection Hr as <-. exact Hc1.
Qed.

Lemma step_in_startup (c : Ctrl) ev c' :
  in_startup c = false -> step localtime select c ev = Return c' -> in_startup c' = false.
Proof.
  intros Hi. destruct ev; simpl.
  - intros Hs. injection Hs as <-. exact Hi.
  - intros Hs. injection Hs as <-. exact Hi.
  - intros Hs. injection Hs as <-. exact Hi.
  - intros Hs. injection Hs as <-. unfold peer_update.
    destruct (peers c !! id) as [[st u]|]; exact Hi.
  - intros Hs. obind_inv Hs. injection Hs as <-.
    exact (peer_measurement_in_startup _ _ _ _ _ Hi E).
  - intros Hs. obind_inv Hs. injection Hs as <-.
    unfold time_update in E. obind_inv E. injection E as <-.
    simpl. apply steer_frequency_in_startup in E0. rewrite E0. exact Hi.
Qed.

Lemma run_in_startup (c : Ctrl) evs c' :
  in_startup c = false -> run localtime select c evs = Return c' -> in_startup c' = false.
Proof.
  revert c. induction evs as [|ev rest IH]; intros c Hi Hr; simpl in Hr.
  - injection Hr as <-. exact Hi.
  - obind_inv Hr. apply (IH r); [|exact Hr].
    exact (step_in_startup _ _ _ Hi E).
Qed.

(** C1 (code_bug): [new] sets [in_startup] to [false], and no event
    ever sets it to [true]: it is false at every observation point of
    every event sequence, also before the first consensus. *)
Theorem in_startup_false_from_new (k : C) cfg algo (c0 : Ctrl) evs c :
  new k cfg algo = Return c0 ->
  run localtime select c0 evs = Return c ->
  in_startup c0 = false /\ in_startup c = false.
Proof.
  intros Hn Hr.
  assert (Hstart : in_startup c0 = false).
  { unfold new in Hn. obind_inv Hn. obind_inv Hn. obind_inv Hn. obind_inv Hn.
    injection Hn as <-. reflexivity. }
  split; [exact Hstart|]. exact (run_in_startup _ _ _ Hstart Hr).
Qed.

(** C8 (amended): [peer_add(id); peer_remove(id)] leaves the controller
    with [id] deleted from its prior peer table; when [id] was absent,
    the controller is back to its prior state. *)
Theorem peer_add_remove (c : Ctrl) id :
  peer_remove (peer_add c id) id = set_peers c (delete id (peers c)) /\
  (peers c !! id = None -> peer_remove (peer_add c id) id = c).
Proof.
  unfold peer_remove, peer_add, set_peers. simpl. rewrite delete_insert_eq.
  split; [reflexivity|].
  intros Hn. rewrite delete_id by exact Hn. destruct c; reflexivity.
Qed.

(** C9 (amended): a measurement with [localtime - ignore_before < 0]
    updates no peer and calls no clock method, and the update carries
    no used peers and no next update; the only change is
    [update_desired_poll], which recomputes [timedata.poll_interval]. *)
Theorem peer_measurement_too_old (c : Ctrl) id m p :
  ts_sub (localtime m) (ignore_before c) < 0 ->
  peer_measurement localtime select c id m p =
    Return (no_update (update_desired_poll c), update_desired_poll c) /\
  used_peers (no_update (update_desired_poll c)) = None /\
  next_update (no_update (update_desired_poll c)) = None /\
  peers (update_desired_poll c) = peers c /\
  clock (update_desired_poll c) = clock c /\
  freq_offset (update_desired_poll c) = freq_offset c /\
  desired_freq (update_desired_poll c) = desired_freq c /\
  in_startup (update_desired_poll c) = in_startup c /\
  root_delay (timedata (update_desired_poll c)) = root_delay (timedata c) /\
  root_dispersion (timedata (update_desired_poll c)) = root_dispersion (timedata c) /\
  accumulated_steps (timedata (update_desired_poll c)) = accumulated_steps (timedata c).
Proof.
  intros Hlt. unfold peer_measurement, update_peer.
  replace (ts_sub (localtime m) (ignore_before c) <? ZERO) with true
    by (symmetry; apply Z.ltb_lt; exact Hlt).
  repeat split.
Qed.

End ControllerTheorems.

End ControllerFacts.

Module KalmanExamples.
Import Kalman KalmanFacts ControllerFacts Concrete.

Lemma vote_leap_strict_majority_witness :
  vote_leap [snap_with_leap 1 NoWarning; snap_with_leap 2 NoWarning; snap_with_leap 3 Leap61]
  = Return (Some NoWarning) /\
  vote_leap [snap_with_leap 1 NoWarning; snap_with_leap 2 Leap61; snap_with_leap 3 Leap59]
  = Return None.
Proof.
  split.
  - apply (proj1 (vote_leap_strict_majority
                    [snap_with_leap 1 NoWarning; snap_with_leap 2 NoWarning;
                     snap_with_leap 3 Leap61]
                    ltac:(discriminate)
                    ltac:(repeat constructor; discriminate)) NoWarning).
    vm_compute. lia.
  - apply (proj2 (vote_leap_strict_majority
                    [snap_with_leap 1 NoWarning; snap_with_leap 2 Leap61;
                     snap_with_leap 3 Leap59]
                    ltac:(discriminate)
                    ltac:(repeat constructor; discriminate))).
    intros v. destruct v; vm_compute; lia.
Defined.

Lemma combine_singleton_witness :
  exists c, combine [snap_with_leap 4 Leap59] = Return (Some c) /\ estimate c = mkVector 0 0.
Proof.
  destruct (combine_singleton (snap_with_leap 4 Leap59) ltac:(discriminate))
    as [c [Hc [He _]]].
  exists c. split; [exact Hc | exact He].
Defined.

(** C1: the controller [new] returns, driven through a first successful
    consensus ([used_peers = Some [7]]), never has [in_startup] set. *)
Lemma in_startup_false_from_new_witness :
  match run (fun m => m) test_select test_ctrl0 startup_events with
  | Return c => in_startup test_ctrl0 = false /\ in_startup c = false
  | Abort _ => False
  end.
Proof.
  destruct (run (fun m => m) test_select test_ctrl0 startup_events) as [c|r] eqn:Er.
  - assert (Hn : new (mkTestClock 1000 []) (test_config 10) test_algo = Return test_ctrl0)
      by (vm_compute; reflexivity).
    exact (in_startup_false_from_new (fun m => m) test_select
             (mkTestClock 1000 []) (test_config 10) test_algo test_ctrl0 startup_events c
             Hn Er).
  - vm_compute in Er. discriminate Er.
Defined.

(** The first measurement of [startup_events] reaches a consensus. *)
Lemma startup_events_reach_consensus :
  match run (fun m => m) test_select test_ctrl0 [EvPeerAdd 7%nat; EvPeerUpdate 7%nat true] with
  | Return c =>
      match peer_measurement (fun m => m) test_select c 7%nat 2000 tt with
      | Return (u, c') => used_peers u = Some [7%nat] /\ in_startup c' = false
      | Abort _ => False
      end
  | Abort _ => False
  end.
Proof. vm_compute. split; reflexivity. Qed.

(** C8 counterexample: with peer 7 already present (and usable), adding
    and removing 7 leaves no peer 7 at all. *)
Lemma peer_add_remove_drops_existing :
  match run (fun m => m) test_select test_ctrl0 [EvPeerAdd 7%nat; EvPeerUpdate 7%nat true] with
  | Return c =>
      peers c !! 7%nat = Some (ps_new, true) /\
      peers (peer_remove (peer_add c 7%nat) 7%nat) !! 7%nat = None
  | Abort _ => False
  end.
Proof. vm_compute. split; reflexivity. Qed.

Lemma peer_add_remove_witness :
  peer_remove (peer_add test_ctrl0 7%nat) 7%nat = test_ctrl0.
Proof.
  apply (proj2 (peer_add_remove test_ctrl0 7%nat)).
  vm_compute. reflexivity.
Defined.

(** C9 counterexample: after the poll limits change, a measurement older
    than [ignore_before] still changes the controller: its poll interval
    goes from 10 to 12. *)
Lemma dropped_measurement_changes_poll_interval :
  match run (fun m => m) test_select test_ctrl0
          [EvPeerMeasurement 7%nat 0 tt; EvUpdateConfig (test_config 12) test_algo] with
  | Return c =>
      ts_sub 0 (ignore_before c) < 0 /\
      match peer_measurement (fun m => m) test_select c 7%nat 0 tt with
      | Return (u, c') =>
          poll_interval (timedata c) = 10 /\ poll_interval (timedata c') = 12
      | Abort _ => False
      end
  | Abort _ => False
  end.
Proof. vm_compute. repeat split; reflexivity. Qed.

Lemma peer_measurement_too_old_witness :
  peer_measurement (fun m => m) test_select test_ctrl0 7%nat 0 tt =
    Return (no_update (update_desired_poll test_ctrl0), update_desired_poll test_ctrl0).
Proof.
  apply (proj1 (peer_measurement_too_old (fun m => m) test_select test_ctrl0 7%nat 0 tt
                  ltac:(vm_compute; reflexivity))).
Defined.

End KalmanExamples.

(** ** [peer.rs]: polling, reachability and acceptance *)

Module PeerPollFacts.
Import PeerRs.

Lemma reach_polls_succ (k : nat) (r : Z) :
  reach_polls (S k) r = (r * 2 ^ Z.of_nat (S k)) mod 256.
Proof.
  induction k as [|k IH].
  - unfold reach_polls, reach_poll. simpl. rewrite Z.shiftl_mul_pow2 by lia. reflexivity.
  - change (reach_polls (S (S k)) r) with (reach_poll (reach_polls (S k) r)).
    rewrite IH. unfold reach_poll. rewrite Z.shiftl_mul_pow2 by lia.
    rewrite Zmult_mod_idemp_l. f_equal.
    replace (Z.of_nat (S (S k))) with (Z.of_nat (S k) + 1) by lia.
    rewrite Z.pow_add_r by lia. ring.
Qed.

Lemma testbit_nonzero (x n : Z) : Z.testbit x n = true -> x <> 0.
Proof. intros Hb ->. rewrite Z.testbit_0_l in Hb. discriminate. Qed.

Lemma received_packet_reachable (r : Z) : is_reachable (received_packet r) = true.
Proof.
  unfold is_reachable, received_packet.
  assert (Hb : Z.testbit (Z.lor r 1) 0 = true)
    by (rewrite Z.lor_spec; apply orb_true_r).
  apply testbit_nonzero in Hb. apply negb_true_iff, Z.eqb_neq. exact Hb.
Qed.

Lemma reach_polls_zero (k : nat) : reach_polls k 0 = 0.
Proof.
  induction k as [|k IH]; [reflexivity|].
  change (reach_polls (S k) 0) with (reach_poll (reach_polls k 0)). rewrite IH. reflexivity.
Qed.

Lemma mode_eqb_true (a b : NtpAssociationMode) : mode_eqb a b = true <-> a = b.
Proof. destruct a, b; simpl; split; congruence. Qed.

Lemma option_ts_eqb_some (o : NtpTimestamp) (n : option NtpTimestamp) :
  option_ts_eqb (Some o) n = true <-> n = Some o.
Proof.
  destruct n as [x|]; simpl; [|split; discriminate].
  rewrite Z.eqb_eq. split; [intros ->; reflexivity | congruence].
Qed.

Section PollTheorems.
Context {F : Type} `{FloatOps F}.
Context {LM FT : Type}.
Variable from_packet_default : NtpHeader -> NtpDuration -> NtpTimestamp -> NtpTimestamp -> FT.
Variable lm_step : LM -> FT -> NtpTimestamp -> NtpLeapIndicator ->
                   LM * option (PeerStatistics F * NtpTimestamp).

Local Abbreviation handle := (handle_incoming from_packet_default lm_step).
Local Abbreviation run := (peer_run from_packet_default lm_step).

Lemma message_for_system_keeps (p : Peer F LM) ft l :
  let p' := fst (message_for_system lm_step p ft l) in
  last_poll_interval p' = last_poll_interval p /\
  next_poll_interval p' = next_poll_interval p /\
  remote_min_poll_interval p' = remote_min_poll_interval p /\
  last_packet p' = last_packet p /\ reach p' = reach p /\ our_id p' = our_id p.
Proof.
  unfold message_for_system.
  destruct (lm_step _ _ _ _) as [lm' [[st tm]|]]; repeat split.
Qed.

(** The accepting branch of [handle_incoming]: everything but the filter
    is decided before [message_for_system]. *)
Lemma handle_incoming_accept_path (p : Peer F LM) msg rt :
  mode msg = Server -> next_expected_origin p = Some (origin_timestamp msg) ->
  kiss_code msg = NotKiss ->
  let p' := fst (handle p msg rt) in
  last_poll_interval p' = last_poll_interval p /\
  next_poll_interval p' = last_poll_interval p /\
  remote_min_poll_interval p' = remote_min_poll_interval p /\
  last_packet p' = last_packet p /\ reach p' = received_packet (reach p) /\
  (snd (handle p msg rt) = Err TooOld \/ exists s, snd (handle p msg rt) = Ok s).
Proof.
  intros Hm Ho Hk. unfold handle_incoming.
  rewrite Hm, Ho. simpl. rewrite Z.eqb_refl. unfold is_kiss_rate, is_kiss. rewrite Hk. simpl.
  unfold message_for_system.
  destruct (lm_step _ _ _ _) as [lm' [[st tm]|]]; simpl;
    repeat split; eauto.
Qed.

Lemma handle_incoming_last_packet (p : Peer F LM) msg rt :
  last_packet (fst (handle p msg rt)) = last_packet p.
Proof.
  unfold handle_incoming.
  destruct (negb (mode_eqb _ _)); [reflexivity|].
  destruct (negb (option_ts_eqb _ _)); [reflexivity|].
  destruct (is_kiss_rate msg); [reflexivity|].
  destruct (is_kiss msg); [reflexivity|].
  exact (proj1 (proj2 (proj2 (proj2 (message_for_system_keeps _ _ _))))).
Qed.

Lemma peer_run_cons (p : Peer F LM) ev evs : run p (ev :: evs) = run (peer_step from_packet_default lm_step p ev) evs.
Proof. reflexivity. Qed.

Lemma peer_run_last_packet (p : Peer F LM) evs : last_packet (run p evs) = last_packet p.
Proof.
  revert p. induction evs as [|ev evs IH]; intros p; [reflexivity|].
  rewrite peer_run_cons, IH. destruct ev; simpl; [reflexivity|reflexivity|].
  apply handle_incoming_last_packet.
Qed.

(** X1: [Reach]: after a response ([received_packet]) the peer stays
    reachable for the next seven polls, whatever the register held;
    eight polls with no response in between leave it unreachable. *)
Theorem reach_response_window (r : Z) (k : nat) :
  (k < 8)%nat ->
  is_reachable (reach_polls k (received_packet r)) = true /\
  is_reachable (reach_polls 8 r) = false.
Proof.
  intros Hk. split.
  - destruct k as [|k]; [apply received_packet_reachable|].
    unfold is_reachable. apply negb_true_iff, Z.eqb_neq.
    apply (testbit_nonzero _ (Z.of_nat (S k))).
    rewrite reach_polls_succ. change 256 with (2 ^ 8).
    rewrite Z.mod_pow2_bits_low by lia.
    rewrite Z.mul_pow2_bits by lia. rewrite Z.sub_diag.
    unfold received_packet. rewrite Z.lor_spec. apply orb_true_r.
  - unfold is_reachable. rewrite reach_polls_succ.
    change (2 ^ Z.of_nat 8) with 256. rewrite Z_mod_mult. reflexivity.
Qed.

(** X2: a poll and its answer: [generate_poll_message] sends a client
    packet stamped with the poll time and the current poll interval; a
    server answer echoing that time that is no kiss-o'-death packet marks
    the peer reachable and resets the poll back-off, whether the clock
    filter then keeps the sample ([Ok]) or drops it ([TooOld]). *)
Theorem poll_response_round_trip (p : Peer F LM) t msg rt :
  mode msg = Server -> origin_timestamp msg = t -> kiss_code msg = NotKiss ->
  let p1 := fst (generate_poll_message p t) in
  let pkt := snd (generate_poll_message p t) in
  let p2 := fst (handle p1 msg rt) in
  mode pkt = Client /\ transmit_timestamp pkt = t /\ poll pkt = last_poll_interval p /\
  is_reachable (reach p2) = true /\ next_poll_interval p2 = last_poll_interval p /\
  (snd (handle p1 msg rt) = Err TooOld \/ exists s, snd (handle p1 msg rt) = Ok s).
Proof.
  intros Hm Ho Hk p1 pkt p2.
  destruct (handle_incoming_accept_path p1 msg rt Hm) as (_ & Hn & _ & _ & Hr & Hres);
    [subst p1; rewrite Ho; reflexivity | exact Hk |].
  subst p2. rewrite Hr, Hn.
  repeat split; [apply received_packet_reachable | exact Hres].
Qed.

(** X3: a packet that is not in server mode, does not echo the
    outstanding poll, or is a kiss-o'-death packet with a code other than
    RATE is rejected and leaves the peer exactly as it was. *)
Theorem handle_incoming_rejections_unchanged (p : Peer F LM) msg rt :
  (mode msg <> Server -> handle p msg rt = (p, Err InvalidMode)) /\
  (mode msg = Server -> next_expected_origin p <> Some (origin_timestamp msg) ->
   handle p msg rt = (p, Err InvalidPacketTime)) /\
  (mode msg = Server -> next_expected_origin p = Some (origin_timestamp msg) ->
   kiss_code msg = KissOther -> handle p msg rt = (p, Err Kiss)).
Proof.
  unfold handle_incoming. split; [|split].
  - intros Hm. destruct (mode_eqb (mode msg) Server) eqn:E;
      [apply mode_eqb_true in E; contradiction | reflexivity].
  - intros Hm Ho. rewrite Hm. cbn [mode_eqb negb].
    destruct (option_ts_eqb (Some (origin_timestamp msg)) (next_expected_origin p)) eqn:E;
      [apply option_ts_eqb_some in E; contradiction | reflexivity].
  - intros Hm Ho Hk. rewrite Hm, Ho. simpl. rewrite Z.eqb_refl.
    unfold is_kiss_rate, is_kiss. rewrite Hk. reflexivity.
Qed.

(** X4: [get_interval_next_poll] never returns less than the system
    poll interval, the server's minimum or the backed-off interval; with
    no answer to the poll sent in between, the next call returns one
    more (below the [i8] ceiling of 127). *)
Theorem get_interval_next_poll_backoff (p : Peer F LM) sp t :
  let i1 := snd (get_interval_next_poll p sp) in
  (sp <= i1 /\ remote_min_poll_interval p <= i1 /\ next_poll_interval p <= i1) /\
  (i1 < 127 ->
   snd (get_interval_next_poll (fst (generate_poll_message (fst (get_interval_next_poll p sp)) t)) sp)
   = i1 + 1).
Proof.
  simpl. split; [lia|]. intros Hlt. lia.
Qed.

(** X5: when the poll is answered (a server packet echoing it that is
    no kiss-o'-death packet), the next [get_interval_next_poll] returns
    the same interval again: the back-off is undone. *)
Theorem answered_poll_keeps_interval (p : Peer F LM) sp t msg rt :
  mode msg = Server -> origin_timestamp msg = t -> kiss_code msg = NotKiss ->
  let p1 := fst (get_interval_next_poll p sp) in
  let p2 := fst (generate_poll_message p1 t) in
  let p3 := fst (handle p2 msg rt) in
  snd (get_interval_next_poll p3 sp) = snd (get_interval_next_poll p sp).
Proof.
  intros Hm Ho Hk p1 p2 p3.
  destruct (handle_incoming_accept_path p2 msg rt Hm) as (_ & Hn & Hrm & _);
    [subst p2; rewrite Ho; reflexivity | exact Hk |].
  subst p3. cbn [snd get_interval_next_poll]. rewrite Hn, Hrm.
  subst p2 p1. simpl. lia.
Qed.

(** X6: [accept_synchronization] accepts exactly the peers whose last
    packet is synchronized with a stratum below 16, whose root distance
    is within [MAX_DISTANCE + multiply_by_phi(system_poll)], that are no
    loop (stratum 1 or a reference id other than ours) and that are
    reachable. *)
Theorem accept_synchronization_ok_iff (p : Peer F LM) lt sp :
  accept_synchronization p lt sp = Ok tt <->
  is_synchronized (leap (last_packet p)) = true /\ stratum (last_packet p) < MAX_STRATUM /\
  root_distance p lt <= MAX_DISTANCE + multiply_by_phi sp /\
  (stratum (last_packet p) = 1 \/ reference_id (last_packet p) <> our_id p) /\
  is_reachable (reach p) = true.
Proof.
  unfold accept_synchronization.
  destruct (is_synchronized _) eqn:Es; simpl;
    [|split; [discriminate | intros (? & _); discriminate]].
  destruct (MAX_STRATUM <=? _) eqn:Est;
    [apply Z.leb_le in Est; split; [discriminate | lia] | apply Z.leb_gt in Est].
  destruct (_ <? root_distance p lt) eqn:Ed;
    [apply Z.ltb_lt in Ed; split; [discriminate | lia] | apply Z.ltb_ge in Ed].
  destruct (negb (stratum (last_packet p) =? 1) && (reference_id (last_packet p) =? our_id p)) eqn:El.
  - apply andb_true_iff in El as [E1 E2]. apply negb_true_iff, Z.eqb_neq in E1.
    apply Z.eqb_eq in E2. split; [discriminate | intros (_ & _ & _ & [? | ?] & _); contradiction].
  - apply andb_false_iff in El.
    assert (Hl : stratum (last_packet p) = 1 \/ reference_id (last_packet p) <> our_id p).
    { destruct El as [E|E]; [apply negb_false_iff, Z.eqb_eq in E; auto
                            | apply Z.eqb_neq in E; auto]. }
    destruct (is_reachable (reach p)); simpl;
      [split; [intros _; auto | reflexivity] | split; [discriminate | intros (_ & _ & _ & _ & ?); discriminate]].
Qed.

(** X7: a peer that [Peer::new] created and that has only been polled,
    never answered, is never accepted for synchronization. *)
Theorem unanswered_peer_not_accepted (lm0 : LM) our pid t0 evs lt sp :
  Forall (fun ev => match ev with PeHandleIncoming _ _ => False | _ => True end) evs ->
  accept_synchronization (run (PeerRs.new lm0 our pid t0 (F := F)) evs) lt sp <> Ok tt.
Proof.
  intros Hf Hacc. apply accept_synchronization_ok_iff in Hacc as (_ & _ & _ & _ & Hr).
  assert (Hz : forall (p : Peer F LM), reach p = 0 ->
                 Forall (fun ev => match ev with PeHandleIncoming _ _ => False | _ => True end) evs ->
                 reach (run p evs) = 0).
  { clear Hr Hf. induction evs as [|ev evs IH]; intros p Hp Hf'; [exact Hp|].
    inversion Hf' as [|? ? Hev Hrest]; subst.
    rewrite peer_run_cons. apply IH; [|exact Hrest].
    destruct ev; simpl; [exact Hp | rewrite Hp; reflexivity | contradiction]. }
  rewrite Hz in Hr; [discriminate Hr | reflexivity | exact Hf].
Qed.

(** X8: no call on a peer ever stores a received packet: [last_packet]
    keeps the value [Peer::new] gave it, so the stratum check of
    [accept_synchronization] looks at the default header and never fails. *)
Theorem last_packet_never_stored (lm0 : LM) our pid t0 evs lt sp :
  last_packet (run (PeerRs.new lm0 our pid t0 (F := F)) evs) = header_default /\
  accept_synchronization (run (PeerRs.new lm0 our pid t0 (F := F)) evs) lt sp <> Err Stratum.
Proof.
  rewrite peer_run_last_packet. split; [reflexivity|].
  unfold accept_synchronization. rewrite peer_run_last_packet. simpl.
  repeat match goal with |- context [if ?b then _ else _] => destruct b end;
    discriminate.
Qed.

(** X9: the snapshot [handle_incoming] hands to the system carries the
    stratum of the peer's stored packet (not the answer's), and its root
    distance and distance check agree with the updated peer's at every
    local time. *)
Theorem handle_incoming_snapshot_agrees (p : Peer F LM) msg rt p' s lt sp :
  handle p msg rt = (p', Ok s) ->
  ps_stratum s = stratum (last_packet p) /\
  snapshot_root_distance s lt = root_distance p' lt /\
  (snapshot_accept_synchronization s lt sp = Ok tt <->
   root_distance p' lt <= MAX_DISTANCE + multiply_by_phi sp).
Proof.
  unfold handle_incoming.
  destruct (negb (mode_eqb _ _)); [discriminate|].
  destruct (negb (option_ts_eqb _ _)); [discriminate|].
  destruct (is_kiss_rate msg); [discriminate|].
  destruct (is_kiss msg); [discriminate|].
  unfold message_for_system.
  destruct (lm_step _ _ _ _) as [lm' [[st tm]|]]; [|discriminate].
  intros Heq. injection Heq as <- <-. simpl.
  split; [reflexivity|]. split; [reflexivity|].
  unfold snapshot_accept_synchronization, snapshot_root_distance, root_distance. simpl.
  destruct (_ <? _) eqn:E; [apply Z.ltb_lt in E | apply Z.ltb_ge in E];
    split; (discriminate || lia || reflexivity || idtac).
Qed.

End PollTheorems.

End PeerPollFacts.

Module PeerPollExamples.
Import PeerRs PeerPollFacts Concrete.

Lemma reach_response_window_witness :
  (3 < 8)%nat /\ is_reachable (reach_polls 3 (received_packet 0)) = true.
Proof.
  split; [lia|]. exact (proj1 (reach_response_window 0 3 ltac:(lia))).
Defined.

Lemma poll_response_round_trip_witness :
  mode (server_reply 5 NotKiss) = Server /\
  is_reachable (reach (fst (handle_incoming test_from_packet test_lm_step
                              (fst (generate_poll_message fresh_peer 5))
                              (server_reply 5 NotKiss) 7))) = true.
Proof.
  split; [reflexivity|].
  exact (proj1 (proj2 (proj2 (proj2
    (poll_response_round_trip test_from_packet test_lm_step fresh_peer 5
       (server_reply 5 NotKiss) 7 eq_refl eq_refl eq_refl))))).
Defined.

Lemma handle_incoming_rejections_unchanged_witness :
  next_expected_origin polled_peer <> Some 4 /\
  handle_incoming test_from_packet test_lm_step polled_peer (server_reply 4 NotKiss) 7
  = (polled_peer, Err InvalidPacketTime).
Proof.
  assert (Ho : next_expected_origin polled_peer <> Some 4)
    by (vm_compute; intros Hc; discriminate Hc).
  split; [exact Ho|].
  exact (proj1 (proj2 (handle_incoming_rejections_unchanged test_from_packet test_lm_step
                         polled_peer (server_reply 4 NotKiss) 7)) eq_refl Ho).
Defined.

Lemma get_interval_next_poll_backoff_witness :
  snd (get_interval_next_poll fresh_peer 6) < 127 /\
  snd (get_interval_next_poll (fst (generate_poll_message (fst (get_interval_next_poll fresh_peer 6)) 5)) 6)
  = snd (get_interval_next_poll fresh_peer 6) + 1.
Proof.
  assert (Hl : snd (get_interval_next_poll fresh_peer 6) < 127) by (vm_compute; reflexivity).
  split; [exact Hl|].
  exact (proj2 (get_interval_next_poll_backoff fresh_peer 6 5) Hl).
Defined.

Lemma answered_poll_keeps_interval_witness :
  origin_timestamp (server_reply 5 NotKiss) = 5 /\
  snd (get_interval_next_poll
         (fst (handle_incoming test_from_packet test_lm_step
                 (fst (generate_poll_message (fst (get_interval_next_poll fresh_peer 6)) 5))
                 (server_reply 5 NotKiss) 7)) 6)
  = snd (get_interval_next_poll fresh_peer 6).
Proof.
  split; [reflexivity|].
  exact (answered_poll_keeps_interval test_from_packet test_lm_step fresh_peer 6 5
           (server_reply 5 NotKiss) 7 eq_refl eq_refl eq_refl).
Defined.

Lemma unanswered_peer_not_accepted_witness :
  let evs := [PeGetIntervalNextPoll 6; PeGeneratePollMessage 5;
              PeGetIntervalNextPoll 6; PeGeneratePollMessage 70] in
  Forall (fun ev => match ev with PeHandleIncoming _ _ => False | _ => True end) evs /\
  accept_synchronization (peer_run test_from_packet test_lm_step (PeerRs.new tt 0 0 0) evs) 80 6
  <> Ok tt.
Proof.
  intros evs.
  assert (Hf : Forall (fun ev => match ev with PeHandleIncoming _ _ => False | _ => True end) evs)
    by (repeat constructor).
  split; [exact Hf|].
  exact (unanswered_peer_not_accepted test_from_packet test_lm_step tt 0 0 0 evs 80 6 Hf).
Defined.

Lemma handle_incoming_snapshot_agrees_witness :
  exists p' s,
    handle_incoming test_from_packet test_lm_step polled_peer (server_reply 5 NotKiss) 9
    = (p', Ok s) /\
    snapshot_root_distance s 20 = root_distance p' 20.
Proof.
  eexists. eexists. split; [reflexivity|].
  exact (proj1 (proj2 (handle_incoming_snapshot_agrees test_from_packet test_lm_step
                         polled_peer (server_reply 5 NotKiss) 9 _ _ 20 0 eq_refl))).
Defined.

End PeerPollExamples.

(** ** [algorithm/kalman/mod.rs]: combining the selection *)

Module CombineFacts.
Import Kalman.

Lemma fold_min_le (r : list Z) (x : Z) :
  fold_left Z.min r x <= x /\ Forall (fun y => fold_left Z.min r x <= y) r.
Proof.
  revert x. induction r as [|y r IH]; intros x; simpl; [split; [lia | constructor]|].
  destruct (IH (Z.min x y)) as [H1 H2]. split; [lia|]. constructor; [lia | exact H2].
Qed.

Lemma fold_min_attained (r : list Z) (x : Z) :
  fold_left Z.min r x = x \/ In (fold_left Z.min r x) r.
Proof.
  revert x. induction r as [|y r IH]; intros x; simpl; [left; reflexivity|].
  destruct (IH (Z.min x y)) as [E|E]; [|right; right; exact E].
  rewrite E. destruct (Z.min_spec x y) as [[_ ->]|[_ ->]]; [left | right; left]; reflexivity.
Qed.

Section CombineTheorems.
Context {F : Type} `{FloatOps F}.
Context {Index : Type}.
Local Abbreviation Snap := (PeerSnapshot F Index).

Lemma tally_unknown (sel : list Snap) s a b c :
  In s sel -> snap_leap_indicator s = Unknown -> tally sel a b c = None.
Proof.
  revert a b c. induction sel as [|s' rest IH]; intros a b c Hin Hs; [destruct Hin|].
  destruct Hin as [<-|Hin]; simpl.
  - rewrite Hs. reflexivity.
  - destruct (snap_leap_indicator s'); auto.
Qed.

Lemma insert_by_det_perm (x : Index * F) l l' :
  insert_by_det x l = Some l' -> Permutation l' (x :: l).
Proof.
  revert l'. induction l as [|y l IH]; intros l' Hi; simpl in Hi.
  - injection Hi as <-. reflexivity.
  - destruct (f_partial_cmp (snd x) (snd y)) as [[| |]|]; try discriminate Hi.
    + destruct (insert_by_det x l) as [y'|] eqn:E; [|discriminate Hi].
      injection Hi as <-. rewrite (IH y' eq_refl). apply perm_swap.
    + injection Hi as <-. reflexivity.
    + destruct (insert_by_det x l) as [y'|] eqn:E; [|discriminate Hi].
      injection Hi as <-. rewrite (IH y' eq_refl). apply perm_swap.
Qed.

Lemma sort_by_det_acc_perm (l acc r : list (Index * F)) :
  sort_by_det_acc l acc = Some r -> Permutation r (l ++ acc).
Proof.
  revert acc. induction l as [|x l IH]; intros acc Hs; simpl in Hs.
  - injection Hs as <-. reflexivity.
  - destruct (insert_by_det x acc) as [acc'|] eqn:E; [|discriminate Hs].
    simpl in Hs. rewrite (IH _ Hs), (insert_by_det_perm _ _ _ E).
    simpl. symmetry. apply Permutation_middle.
Qed.

Lemma combine_fold_used (rest : list Snap) e u up :
  map fst (snd (fold_left combine_step rest (e, u, up))) = map fst up ++ map index rest.
Proof.
  revert e u up. induction rest as [|s rest IH]; intros e u up; cbn [fold_left].
  - rewrite app_nil_r. reflexivity.
  - remember (combine_step (e, u, up) s) as acc eqn:Ea. destruct acc as [[e' u'] up'].
    rewrite IH. unfold combine_step in Ea. injection Ea as _ _ ->.
    rewrite map_app, <- app_assoc. reflexivity.
Qed.

(** X10: one [Unknown] leap indicator in the selection makes
    [vote_leap] panic, and with it [combine]. *)
Theorem vote_leap_unknown_panics (sel : list Snap) s :
  In s sel -> snap_leap_indicator s = Unknown ->
  vote_leap sel = Abort Panic /\ combine sel = Abort Panic.
Proof.
  intros Hin Hs.
  assert (Hv : vote_leap sel = Abort Panic)
    by (unfold vote_leap; rewrite (tally_unknown sel s 0 0 0 Hin Hs); reflexivity).
  split; [exact Hv|].
  destruct sel as [|first rest]; [destruct Hin|]. unfold combine.
  destruct (fold_left combine_step rest _) as [[e u] up].
  destruct (sort_by_det up); cbn [expect obind]; [rewrite Hv|]; reflexivity.
Qed.

(** X11: [combine] finds no consensus ([None]) exactly on the empty
    selection; on any other it returns a result or panics. *)
Theorem combine_none_iff_empty (sel : list Snap) :
  combine sel = Return None <-> sel = [].
Proof.
  split; [|intros ->; reflexivity].
  destruct sel as [|first rest]; [reflexivity|]. unfold combine.
  destruct (fold_left combine_step rest _) as [[e u] up].
  destruct (sort_by_det up); cbn [expect obind]; [|discriminate].
  destruct (vote_leap _); cbn [obind]; discriminate.
Qed.

(** X12: the peers [combine] reports as used are those of the
    selection, each once: a reordering (by determinant) of their
    indices. *)
Theorem combine_peers_used_perm (sel : list Snap) c :
  combine sel = Return (Some c) -> Permutation (peers_used c) (map index sel).
Proof.
  destruct sel as [|first rest]; [discriminate|]. unfold combine.
  pose proof (combine_fold_used rest (state first)
    (mat_add (uncertainty first)
       (mat_new (sqr (f_to_seconds (peer_uncertainty first))) f_zero f_zero f_zero))
    [(index first,
      determinant (mat_add (uncertainty first)
         (mat_new (sqr (f_to_seconds (peer_uncertainty first))) f_zero f_zero f_zero)))])
    as Hused.
  destruct (fold_left combine_step rest _) as [[e u] up]. simpl in Hused.
  destruct (sort_by_det up) as [sorted|] eqn:Es; cbn [expect obind]; [|discriminate].
  destruct (vote_leap _); cbn [obind]; [|discriminate].
  intros Hc. injection Hc as <-. simpl.
  apply sort_by_det_acc_perm in Es. rewrite app_nil_r in Es.
  rewrite (Permutation_map fst Es), Hused. reflexivity.
Qed.

(** X13: the delay [combine] reports is the smallest
    [delay + peer_delay] over the selection: no larger than any of them
    and equal to one. *)
Theorem combine_delay_min (sel : list Snap) c :
  combine sel = Return (Some c) ->
  Forall (fun s => c_delay c <= dur_add (f_from_seconds (delay s)) (peer_delay s)) sel /\
  Exists (fun s => c_delay c = dur_add (f_from_seconds (delay s)) (peer_delay s)) sel.
Proof.
  destruct sel as [|first rest]; [discriminate|]. unfold combine.
  destruct (fold_left combine_step rest _) as [[e u] up].
  destruct (sort_by_det up) as [sorted|]; cbn [expect obind]; [|discriminate].
  destruct (vote_leap _); cbn [obind]; [|discriminate].
  intros Hc. injection Hc as <-. cbn [c_delay list_min map default].
  set (f := fun v : Snap => dur_add (f_from_seconds (delay v)) (peer_delay v)).
  fold (f first). change (map _ rest) with (map f rest).
  destruct (fold_min_le (map f rest) (f first)) as [H1 H2].
  split.
  - constructor; [exact H1|]. rewrite List.Forall_forall in H2. rewrite List.Forall_forall.
    intros s Hs. apply H2. exact (in_map f rest s Hs).
  - destruct (fold_min_attained (map f rest) (f first)) as [E|E];
      [left; exact E | right; apply in_map_iff in E as (s & Es & Hs)].
    apply List.Exists_exists. exists s. split; [exact Hs | symmetry; exact Es].
Qed.

End CombineTheorems.

End CombineFacts.

(** ** [algorithm/kalman/mod.rs]: the controller's state *)

Module ControllerStateFacts.
Import Kalman.

Section StateTheorems.
Context {F : Type} `{FloatOps F}.
Context {C : Type} `{NtpClock F C}.
Context {PeerID : Type} `{Countable PeerID}.
Context {PeerState Measurement NtpPacket : Type}
        `{KalmanPeerState F PeerState Measurement NtpPacket}.
Variable localtime : Measurement -> NtpTimestamp.
Variable select : SystemConfig -> AlgorithmConfig F ->
                  list (PeerSnapshot F PeerID) -> list (PeerSnapshot F PeerID).

Local Abbreviation Ctrl := (KalmanClockController F C PeerID PeerState).

Ltac oret_inv H x E :=
  match type of H with
  | obind ?o _ = Return _ => destruct o as [x|?] eqn:E; cbn [obind] in H; [|discriminate H]
  end.

Lemma fmap_keeps_flags (g : PeerState -> PeerState) (m : gmap PeerID (PeerState * bool)) id :
  snd <$> (((fun su => (g (fst su), snd su)) <$> m) !! id) = snd <$> (m !! id).
Proof. rewrite lookup_fmap. destruct (m !! id); reflexivity. Qed.

Lemma steer_frequency_keeps (c : Ctrl) ch r :
  steer_frequency c ch = Return r ->
  desired_freq (snd r) = desired_freq c /\ config (snd r) = config c /\
  algo_config (snd r) = algo_config c /\ timedata (snd r) = timedata c /\
  (forall id, snd <$> (peers (snd r) !! id) = snd <$> (peers c !! id)).
Proof.
  unfold steer_frequency. intros Hs.
  oret_inv Hs k Ek. oret_inv Hs t Et. injection Hs as <-. simpl.
  repeat split. intros id. apply fmap_keeps_flags.
Qed.

Lemma check_offset_steer_keeps (c : Ctrl) ch c' :
  check_offset_steer c ch = Return c' ->
  peers c' = peers c /\ clock c' = clock c /\ desired_freq c' = desired_freq c /\
  config c' = config c /\ algo_config c' = algo_config c.
Proof.
  unfold check_offset_steer. intros Hc.
  destruct (in_startup c).
  - destruct (startup_panic_threshold _ _); [|discriminate Hc].
    injection Hc as <-. repeat split.
  - destruct (_ || _); [discriminate Hc|]. injection Hc as <-. repeat split.
Qed.

Lemma steer_offset_keeps_flags (c : Ctrl) ch r :
  steer_offset c ch = Return r ->
  config (snd r) = config c /\
  (forall id, snd <$> (peers (snd r) !! id) = snd <$> (peers c !! id)).
Proof.
  unfold steer_offset. intros Hs. oret_inv Hs c1 E1.
  destruct (check_offset_steer_keeps _ _ _ E1) as (Hp & _ & _ & Hcf & _).
  destruct (f_lt _ _).
  - oret_inv Hs k Ek. injection Hs as <-. simpl. split; [exact Hcf|].
    intros id. rewrite fmap_keeps_flags, Hp. reflexivity.
  - oret_inv Hs r1 E2. injection Hs as <-. simpl.
    destruct (steer_frequency_keeps _ _ _ E2) as (_ & Hc2 & _ & _ & Hf2).
    simpl in Hc2, Hf2. split; [rewrite Hc2; exact Hcf|].
    intros id. rewrite Hf2, Hp. reflexivity.
Qed.

Lemma peer_states_in (c : Ctrl) id st u :
  peers c !! id = Some (st, u) -> In st (peer_states c).
Proof.
  intros Hl. unfold peer_states. apply in_map_iff. exists (id, (st, u)). split; [reflexivity|].
  apply list_elem_of_In, elem_of_map_to_list. exact Hl.
Qed.

Lemma omap_all_unusable (l : list (PeerID * (PeerState * bool))) :
  Forall (fun kv => snd (snd kv) = false) l ->
  omap (fun (kv : PeerID * (PeerState * bool)) =>
          let '(id, (st, usable)) := kv in
          if usable then ps_snapshot id st else None) l = [].
Proof.
  induction l as [|[id [st u]] l IH]; intros Hall; [reflexivity|].
  inversion Hall as [|? ? Hu Hrest]; subst. simpl in Hu. subst u.
  simpl. exact (IH Hrest).
Qed.

(** X14: when some peer's filter is already past the requested time,
    [update_clock] changes nothing, touches no clock and reports no
    update. *)
Theorem update_clock_filter_ahead (c : Ctrl) t id st u pt :
  peers c !! id = Some (st, u) -> ps_get_filtertime st = Some pt -> ts_sub t pt < ZERO ->
  update_clock select c t = Return (no_update c, c).
Proof.
  intros Hl Hf Ht. unfold update_clock.
  replace (existsb _ _) with true; [reflexivity|].
  symmetry. apply existsb_exists. exists st. split; [exact (peer_states_in c id st u Hl)|].
  rewrite Hf. apply Z.ltb_lt. exact Ht.
Qed.

(** X15: while a slew is running ([desired_freq <> 0]), [update_clock]
    schedules no next update and leaves [desired_freq] as it is: no
    offset steering starts. *)
Theorem update_clock_while_slewing (c : Ctrl) t u c' :
  f_eqb (desired_freq c) f_zero = false ->
  update_clock select c t = Return (u, c') ->
  next_update u = None /\ desired_freq c' = desired_freq c.
Proof.
  intros Hd. unfold update_clock.
  destruct (existsb _ _); [intros Hu; injection Hu as <- <-; split; reflexivity|].
  intros Hu. oret_inv Hu comb Ec. destruct comb as [combined|];
    [|injection Hu as <- <-; split; reflexivity].
  oret_inv Hu c2 E2.
  assert (Hd2 : desired_freq c2 = desired_freq c).
  { destruct (f_lt _ _) in E2.
    - oret_inv E2 r Er. injection E2 as <-.
      exact (proj1 (steer_frequency_keeps _ _ _ Er)).
    - injection E2 as <-. reflexivity. }
  rewrite Hd2, Hd in Hu. cbn [andb obind] in Hu.
  oret_inv Hu k1 Ek1. oret_inv Hu k2 Ek2. injection Hu as <- <-. split; [reflexivity | exact Hd2].
Qed.

(** X16: a controller none of whose peers is marked usable (and whose
    selection keeps nothing out of nothing) never touches the clock in
    [update_clock], uses no peers and keeps its startup and slew state. *)
Theorem update_clock_no_usable_peers (c : Ctrl) t u c' :
  select (config c) (algo_config c) [] = [] ->
  map_Forall (fun _ v => snd v = false) (peers c) ->
  update_clock select c t = Return (u, c') ->
  used_peers u = None /\ clock c' = clock c /\ in_startup c' = in_startup c /\
  desired_freq c' = desired_freq c.
Proof.
  intros Hsel Hall. unfold update_clock.
  destruct (existsb _ _); [intros Hu; injection Hu as <- <-; repeat split|].
  rewrite omap_all_unusable.
  - cbn [set_peers config algo_config]. rewrite Hsel. cbn [combine obind].
    intros Hu. injection Hu as <- <-. repeat split.
  - cbn [set_peers peers].
    assert (Hall' : map_Forall (fun _ v => snd v = false)
              ((fun su => (ps_progress_filtertime t (fst su), snd su)) <$> peers c)).
    { apply map_Forall_fmap. intros i v Hv. exact (Hall i v Hv). }
    apply map_Forall_to_list in Hall'.
    eapply Forall_impl; [exact Hall'|]. intros [i [s b]]. simpl. auto.
Qed.

(** X17: [check_offset_steer] during startup returns the controller
    unchanged when the startup threshold allows the step and exits with
    [EXIT_SOFTWARE] otherwise; after startup a step that returns has
    passed the panic threshold and is added to [accumulated_steps], and
    a step outside the panic threshold exits. *)
Theorem check_offset_steer_accounting (c : Ctrl) ch :
  (in_startup c = true ->
   (startup_panic_threshold (config c) (f_from_seconds ch) = true ->
    check_offset_steer c ch = Return c) /\
   (startup_panic_threshold (config c) (f_from_seconds ch) = false ->
    check_offset_steer c ch = Abort (Exit EXIT_SOFTWARE))) /\
  (in_startup c = false -> forall c', check_offset_steer c ch = Return c' ->
   accumulated_steps (timedata c') = accumulated_steps (timedata c) + f_from_seconds ch /\
   panic_threshold (config c) (f_from_seconds ch) = true) /\
  (in_startup c = false -> panic_threshold (config c) (f_from_seconds ch) = false ->
   check_offset_steer c ch = Abort (Exit EXIT_SOFTWARE)).
Proof.
  unfold check_offset_steer. split; [|split].
  - intros Hi. rewrite Hi. split; intros Ht; rewrite Ht; reflexivity.
  - intros Hi c' Hc. rewrite Hi in Hc.
    destruct (panic_threshold _ _) eqn:Ep; simpl in Hc; [|discriminate Hc].
    destruct (match accumulated_threshold _ with Some v => _ | None => true end);
      simpl in Hc; [|discriminate Hc].
    injection Hc as <-. split; reflexivity.
  - intros Hi Hp. rewrite Hi. simpl. rewrite Hp. reflexivity.
Qed.

(** X18: the accumulated threshold bounds each step on its own, never
    the running total: after startup, a step within the panic threshold
    and smaller than the accumulated threshold passes whatever
    [accumulated_steps] already holds, and leaves a controller in which
    the same step passes again. *)
Theorem accumulated_threshold_per_step (c : Ctrl) ch v :
  in_startup c = false -> accumulated_threshold (config c) = Some v ->
  panic_threshold (config c) (f_from_seconds ch) = true -> Z.abs (f_from_seconds ch) < v ->
  exists c', check_offset_steer c ch = Return c' /\
    accumulated_steps (timedata c') = accumulated_steps (timedata c) + f_from_seconds ch /\
    in_startup c' = false /\ config c' = config c.
Proof.
  intros Hi Ha Hp Hv. unfold check_offset_steer. rewrite Hi. cbn [set_timedata config].
  rewrite Hp, Ha. apply Z.ltb_lt in Hv. rewrite Hv. simpl.
  eexists. split; [reflexivity|]. repeat split. exact Hi.
Qed.

(** X19: [steer_offset] either jumps the clock (the change exceeds
    [jump_threshold]): no next update, [desired_freq] kept; or starts a
    slew: a next update is scheduled and [desired_freq] becomes
    [-min(slew_max_frequency_offset, |change| / slew_min_duration) *
    signum(change)]. *)
Theorem steer_offset_jump_or_slew (c : Ctrl) ch nu c' :
  steer_offset c ch = Return (nu, c') ->
  (f_lt (jump_threshold (algo_config c)) (f_abs ch) = true ->
   nu = None /\ desired_freq c' = desired_freq c) /\
  (f_lt (jump_threshold (algo_config c)) (f_abs ch) = false ->
   (exists t, nu = Some t) /\
   desired_freq c' =
     f_mul (f_neg (f_min (slew_max_frequency_offset (algo_config c))
                         (f_div (f_abs ch) (slew_min_duration (algo_config c)))))
           (f_signum ch)).
Proof.
  unfold steer_offset. intros Hs. oret_inv Hs c1 E1.
  destruct (check_offset_steer_keeps _ _ _ E1) as (_ & _ & Hd & _ & Ha).
  rewrite <- Ha. destruct (f_lt (jump_threshold (algo_config c1)) (f_abs ch)) eqn:Ej.
  - oret_inv Hs k Ek. injection Hs as <- <-.
    split; [intros _; split; [reflexivity | exact Hd] | discriminate].
  - oret_inv Hs r Er. injection Hs as <- <-.
    destruct (steer_frequency_keeps _ _ _ Er) as (Hd2 & _ & _ & _ & _).
    split; [discriminate|]. intros _. split; [eexists; reflexivity|].
    rewrite Hd2. reflexivity.
Qed.

(** X20: [update_desired_poll] sets the poll interval to the smallest
    poll interval the peers' filters want, or to the configured maximum
    when there are no peers. *)
Theorem update_desired_poll_min (c : Ctrl) :
  let p := poll_interval (timedata (update_desired_poll c)) in
  let want := ps_get_desired_poll (poll_limits (config c)) in
  (peers c = ∅ -> p = pl_max (poll_limits (config c))) /\
  map_Forall (fun _ v => p <= want (fst v)) (peers c) /\
  (peers c <> ∅ -> exists id v, peers c !! id = Some v /\ p = want (fst v)).
Proof.
  cbv zeta. unfold update_desired_poll, peer_states.
  cbn [timedata set_timedata poll_interval config].
  set (want := ps_get_desired_poll (poll_limits (config c))). rewrite map_map.
  destruct (map_to_list (peers c)) as [|kv rest] eqn:Em.
  - apply map_to_list_empty_iff in Em. rewrite Em.
    split; [reflexivity|]. split; [apply map_Forall_empty | intros Hne; contradiction].
  - cbn [map list_min default].
    set (g := fun x : PeerID * (PeerState * bool) => want (fst (snd x))).
    change (ps_get_desired_poll (poll_limits (config c)) (fst (snd kv))) with (g kv).
    change (map _ rest) with (map g rest).
    destruct (CombineFacts.fold_min_le (map g rest) (g kv)) as [Hmin1 Hmin2].
    split; [intros He; rewrite He, map_to_list_empty in Em; discriminate Em|]. split.
    + intros i v Hv. apply (proj2 (elem_of_map_to_list _ _ _)) in Hv. rewrite Em in Hv.
      apply list_elem_of_In in Hv. destruct Hv as [Hkv|Hv]; [subst kv; exact Hmin1|].
      rewrite List.Forall_forall in Hmin2. apply Hmin2. exact (in_map g rest _ Hv).
    + intros _.
      destruct (CombineFacts.fold_min_attained (map g rest) (g kv)) as [E|E].
      * exists (fst kv), (snd kv). split; [|exact E].
        apply elem_of_map_to_list. rewrite Em. destruct kv. left.
      * apply in_map_iff in E as ([i v] & Ev & Hin).
        exists i, v. split; [|symmetry; exact Ev].
        apply elem_of_map_to_list. rewrite Em. right. apply list_elem_of_In. exact Hin.
Qed.


(** X22: [peer_snapshot] reports a peer's filter whether or not it is
    marked usable, reports nothing for a removed peer, and reports a new
    filter's snapshot for a peer just added. *)
Theorem peer_snapshot_table (c : Ctrl) id id' usable :
  peer_snapshot (peer_update c id' usable) id = peer_snapshot c id /\
  peer_snapshot (peer_remove c id) id = None /\
  peer_snapshot (peer_add c id) id = observe <$> ps_snapshot id ps_new.
Proof.
  unfold peer_snapshot. split; [|split].
  - unfold peer_update. destruct (peers c !! id') as [[st u0]|] eqn:E; [|reflexivity].
    cbn [set_peers peers]. destruct (decide (id = id')) as [->|Hne].
    + rewrite lookup_insert_eq, E. reflexivity.
    + rewrite lookup_insert_ne by congruence. reflexivity.
  - cbn [peer_remove set_peers peers]. rewrite lookup_delete_eq. reflexivity.
  - cbn [peer_add set_peers peers]. rewrite lookup_insert_eq. reflexivity.
Qed.

(** X23: a measurement for a peer that is unknown or not marked usable
    never reaches [update_clock]: the clock is not touched, no peers are
    reported used, and the startup and slew state stay as they were. *)
Theorem peer_measurement_unusable_no_clock (c : Ctrl) id m pk :
  (peers c !! id = None \/ exists st, peers c !! id = Some (st, false)) ->
  exists c', peer_measurement localtime select c id m pk = Return (no_update c', c') /\
    clock c' = clock c /\ desired_freq c' = desired_freq c /\ in_startup c' = in_startup c.
Proof.
  intros Hid. unfold peer_measurement.
  assert (Hu : snd (update_peer localtime c id m pk) = false /\
               clock (fst (update_peer localtime c id m pk)) = clock c /\
               desired_freq (fst (update_peer localtime c id m pk)) = desired_freq c /\
               in_startup (fst (update_peer localtime c id m pk)) = in_startup c).
  { unfold update_peer. destruct (_ <? _); [repeat split|].
    destruct Hid as [-> | [st ->]]; [repeat split|].
    destruct (ps_update _ _ _ _ _) as [st' acc]. simpl.
    rewrite andb_false_r. repeat split. }
  destruct (update_peer localtime c id m pk) as [c1 b]. simpl in Hu.
  destruct Hu as (-> & Hk & Hd & Hs).
  eexists. split; [reflexivity|]. exact (conj Hk (conj Hd Hs)).
Qed.

Lemma update_clock_keeps_flags (c : Ctrl) t u c' :
  update_clock select c t = Return (u, c') ->
  forall id, snd <$> (peers c' !! id) = snd <$> (peers c !! id).
Proof.
  unfold update_clock.
  destruct (existsb _ _); [intros Hu; injection Hu as _ <-; reflexivity|].
  intros Hu. oret_inv Hu comb Ec. destruct comb as [combined|];
    [|injection Hu as _ <-; intros id; apply fmap_keeps_flags].
  oret_inv Hu c2 E2.
  assert (Hf2 : forall id, snd <$> (peers c2 !! id) = snd <$> (peers c !! id)).
  { intros id. destruct (f_lt _ _) in E2.
    - oret_inv E2 r Er. injection E2 as <-.
      rewrite (proj2 (proj2 (proj2 (proj2 (steer_frequency_keeps _ _ _ Er))))).
      apply fmap_keeps_flags.
    - injection E2 as <-. apply fmap_keeps_flags. }
  oret_inv Hu r3 E3.
  assert (Hf3 : forall id, snd <$> (peers (snd r3) !! id) = snd <$> (peers c !! id)).
  { intros id. destruct (_ && _) in E3.
    - rewrite (proj2 (steer_offset_keeps_flags _ _ _ E3)). apply Hf2.
    - injection E3 as <-. apply Hf2. }
  destruct r3 as [nu c3]. oret_inv Hu k1 Ek1. oret_inv Hu k2 Ek2.
  injection Hu as _ <-. exact Hf3.
Qed.

Lemma update_peer_keeps_flags (c : Ctrl) id m pk :
  forall i, snd <$> (peers (fst (update_peer localtime c id m pk)) !! i) = snd <$> (peers c !! i).
Proof.
  intros i. unfold update_peer. destruct (_ <? _); [reflexivity|].
  destruct (peers c !! id) as [[st u]|] eqn:E; [|reflexivity].
  destruct (ps_update _ _ _ _ _) as [st' acc]. cbn [fst set_peers peers].
  destruct (decide (i = id)) as [->|Hne].
  - rewrite lookup_insert_eq, E. reflexivity.
  - rewrite lookup_insert_ne by congruence. reflexivity.
Qed.

(** X24: only [peer_add], [peer_remove] and [peer_update] change which
    peers the controller tracks and which of them are usable: a
    configuration update, a measurement or a time update keeps every
    peer's presence and usable flag. *)
Theorem step_keeps_peer_flags (c : Ctrl) ev c' :
  match ev with EvPeerAdd _ | EvPeerRemove _ | EvPeerUpdate _ _ => False | _ => True end ->
  step localtime select c ev = Return c' ->
  forall id, snd <$> (peers c' !! id) = snd <$> (peers c !! id).
Proof.
  intros Hev. destruct ev; try contradiction; simpl.
  - intros Hs. injection Hs as <-. reflexivity.
  - intros Hs. oret_inv Hs r Er. injection Hs as <-. intros i.
    unfold peer_measurement in Er.
    pose proof (update_peer_keeps_flags c id m p i) as Hp.
    destruct (update_peer localtime c id m p) as [c1 b]. simpl in Hp.
    destruct b.
    + destruct r as [u c2]. rewrite (update_clock_keeps_flags _ _ _ _ Er). exact Hp.
    + injection Er as <-. exact Hp.
  - intros Hs. oret_inv Hs r Er. injection Hs as <-. intros i.
    unfold time_update in Er. oret_inv Er r1 E1. injection Er as <-. simpl.
    apply (proj2 (proj2 (proj2 (proj2 (steer_frequency_keeps _ _ _ E1))))).
Qed.

End StateTheorems.

End ControllerStateFacts.

(** ** [ntp-udp/src/interface_name.rs] *)

Module InterfaceNameFacts.
Import PeerRs InterfaceName.

Lemma skipn_repeat' {A} (x : A) (k n : nat) : skipn k (repeat x n) = repeat x (n - k).
Proof.
  revert n. induction k as [|k IH]; intros n; [rewrite Nat.sub_0_r; reflexivity|].
  destruct n as [|n]; [reflexivity|]. simpl. apply IH.
Qed.

Lemma copy_ifrn_name_spec (name : list Byte.byte) :
  copy_ifrn_name name = firstn 16 name ++ repeat Byte.x00 (16 - length name) /\
  length (copy_ifrn_name name) = 16%nat.
Proof.
  unfold copy_ifrn_name. rewrite repeat_length, skipn_repeat'.
  destruct (Nat.le_ge_cases (length name) 16) as [Hl|Hl].
  - rewrite Nat.min_l by exact Hl. rewrite firstn_all.
    rewrite (firstn_all2 (n := 16) name) by exact Hl.
    split; [reflexivity|]. rewrite length_app, repeat_length. lia.
  - rewrite Nat.min_r by exact Hl.
    replace (16 - length name)%nat with 0%nat by lia. rewrite Nat.sub_diag.
    split; [reflexivity|]. rewrite length_app, length_firstn, repeat_length. lia.
Qed.

Lemma ip_eqb_true (a b : IpAddr) : ip_eqb a b = true <-> a = b.
Proof.
  destruct a as [x|x], b as [y|y]; simpl; rewrite ?Z.eqb_eq; split; congruence.
Qed.

Lemma digit_mod (b r : Z) : 0 <= b < 256 -> (b + 256 * r) mod 256 = b.
Proof.
  intros Hb. rewrite Z.mul_comm, Z_mod_plus_full. apply Z.mod_small. exact Hb.
Qed.

Lemma digit_div (b r : Z) : 0 <= b < 256 -> (b + 256 * r) / 256 = r.
Proof.
  intros Hb. rewrite Z.mul_comm, Z.div_add by lia. rewrite Z.div_small by exact Hb. reflexivity.
Qed.

Lemma to_le_bytes_digits (b0 b1 b2 b3 : Z) :
  0 <= b0 < 256 -> 0 <= b1 < 256 -> 0 <= b2 < 256 -> 0 <= b3 < 256 ->
  to_le_bytes (b0 + 256 * (b1 + 256 * (b2 + 256 * b3))) = [b0; b1; b2; b3].
Proof.
  intros H0 H1 H2 H3. unfold to_le_bytes.
  change 65536 with (256 * 256). change 16777216 with (256 * 256 * 256).
  rewrite <- !Z.div_div by lia.
  rewrite !digit_div by assumption. rewrite !digit_mod by assumption.
  rewrite Z.mod_small by exact H3. reflexivity.
Qed.

(** X25: [interface_name] passes on the error of [getifaddrs], and
    reports no name exactly when no interface has the local address's
    IP. *)
Theorem interface_name_none_iff {E : Type} (e : E) l local_addr :
  interface_name (Err e) local_addr = Err e /\
  (interface_name (Ok l) local_addr = Ok None (E := E) <->
   Forall (fun i => matches_interface local_addr i = false) l).
Proof.
  split; [reflexivity|]. unfold interface_name.
  induction l as [|i l IH]; simpl; [split; [constructor | reflexivity]|].
  destruct (matches_interface local_addr i) eqn:Em.
  - split; [discriminate | intros Hf; inversion Hf as [|? ? Hi _]; congruence].
  - rewrite IH. split; [intros Hf; constructor; assumption | intros Hf; inversion Hf; assumption].
Qed.

(** X26: the name [interface_name] returns is that of the first
    interface with the local IP, in 16 bytes: the name's first 16
    bytes, zero-padded when shorter; a name of 16 bytes or more fills
    all 16, with no terminating zero. *)
Theorem interface_name_first_match {E : Type} l local_addr n :
  interface_name (Ok l) local_addr = Ok (Some n) (E := E) ->
  exists pre i post, l = pre ++ i :: post /\
    Forall (fun j => matches_interface local_addr j = false) pre /\
    matches_interface local_addr i = true /\
    length n = 16%nat /\
    n = firstn 16 (iface_name i) ++ repeat Byte.x00 (16 - length (iface_name i)) /\
    ((16 <= length (iface_name i))%nat -> n = firstn 16 (iface_name i)).
Proof.
  unfold interface_name.
  induction l as [|j l IH]; simpl; [discriminate|].
  destruct (matches_interface local_addr j) eqn:Em.
  - intros Hn. injection Hn as <-.
    destruct (copy_ifrn_name_spec (iface_name j)) as [Hc Hl].
    exists [], j, l. repeat split; [constructor | exact Em | exact Hl | exact Hc |].
    intros H16. rewrite Hc. replace (16 - length (iface_name j))%nat with 0%nat by lia.
    apply app_nil_r.
  - intros Hn. destruct (IH Hn) as (pre & i & post & -> & Hpre & Hrest).
    exists (j :: pre), i, post. split; [reflexivity|]. split; [constructor; assumption|].
    exact Hrest.
Qed.

(** X27: an interface matches on its IP address alone: same address
    family and same address; the port of the local address plays no
    part in the result. *)
Theorem interface_name_ip_only {E : Type} (r : Result (list InterfaceAddress) E) a p1 p2 i :
  (matches_interface (mkSocketAddr a p1) i = true <->
   exists sa, address i = Some sa /\ ip sa = a) /\
  interface_name r (mkSocketAddr a p1) = interface_name r (mkSocketAddr a p2).
Proof.
  split.
  - unfold matches_interface. destruct (address i) as [sa|]; simpl.
    + rewrite ip_eqb_true. split; [intros Hs; eexists; split; [reflexivity | exact Hs]|].
      intros (sa' & Hs & Hip). injection Hs as <-. exact Hip.
    + split; [discriminate | intros (? & Hs & _); discriminate Hs].
  - unfold interface_name. destruct r as [l|e]; [|reflexivity].
    replace (find (matches_interface (mkSocketAddr a p2)) l)
      with (find (matches_interface (mkSocketAddr a p1)) l); [reflexivity|].
    induction l as [|j l IH]; [reflexivity|]. simpl. rewrite IH. reflexivity.
Qed.

(** X28: [to_socket_addr] reads the IPv4 address and the port of a
    [sockaddr_in] (both in network byte order) as host integers, without
    a byte-order conversion. On a little-endian host the address comes
    out right, [b0.b1.b2.b3], but the port is byte-swapped
    ([p0 + 256 * p1] instead of [256 * p0 + p1]); on a big-endian host
    the port is right and the address reversed, [b3.b2.b1.b0]. *)
Theorem to_socket_addr_v4_byte_order (p0 p1 b0 b1 b2 b3 : Z) :
  0 <= p0 < 256 -> 0 <= p1 < 256 ->
  0 <= b0 < 256 -> 0 <= b1 < 256 -> 0 <= b2 < 256 -> 0 <= b3 < 256 ->
  to_socket_addr_v4 LittleEndian p0 p1 b0 b1 b2 b3 =
    mkSocketAddr (ipv4_from_octets [b0; b1; b2; b3]) (p0 + 256 * p1) /\
  to_socket_addr_v4 BigEndian p0 p1 b0 b1 b2 b3 =
    mkSocketAddr (ipv4_from_octets [b3; b2; b1; b0]) (p1 + 256 * p0).
Proof.
  intros Hp0 Hp1 H0 H1 H2 H3. unfold to_socket_addr_v4, load_u32, load_u16.
  rewrite !to_le_bytes_digits by assumption. split; reflexivity.
Qed.

End InterfaceNameFacts.

Module CombineExamples.
Import Kalman CombineFacts Concrete.

Lemma vote_leap_unknown_panics_witness :
  In (snap_with_leap 1 Unknown) [snap_with_leap 0 NoWarning; snap_with_leap 1 Unknown] /\
  combine [snap_with_leap 0 NoWarning; snap_with_leap 1 Unknown] = Abort Panic.
Proof.
  assert (Hin : In (snap_with_leap 1 Unknown) [snap_with_leap 0 NoWarning; snap_with_leap 1 Unknown])
    by (simpl; auto).
  split; [exact Hin|].
  exact (proj2 (vote_leap_unknown_panics _ _ Hin eq_refl)).
Defined.

Lemma combine_peers_used_perm_witness :
  exists c, combine [snap_with_leap 0 NoWarning; snap_with_leap 1 NoWarning] = Return (Some c) /\
    Permutation (peers_used c) [0%nat; 1%nat].
Proof.
  assert (Hc : exists c, combine [snap_with_leap 0 NoWarning; snap_with_leap 1 NoWarning]
                         = Return (Some c)) by (eexists; reflexivity).
  destruct Hc as [c Hc]. exists c. split; [exact Hc|].
  exact (combine_peers_used_perm _ c Hc).
Defined.

Lemma combine_delay_min_witness :
  exists c, combine [snap_with_delay 0 3 5; snap_with_delay 1 1 2] = Return (Some c) /\
    c_delay c <= dur_add (f_from_seconds 3) 5.
Proof.
  assert (Hc : exists c, combine [snap_with_delay 0 3 5; snap_with_delay 1 1 2]
                         = Return (Some c)) by (eexists; reflexivity).
  destruct Hc as [c Hc]. exists c. split; [exact Hc|].
  destruct (combine_delay_min _ c Hc) as [Hall _].
  inversion Hall as [|? ? Hfirst _]. exact Hfirst.
Defined.

End CombineExamples.

Module ControllerStateExamples.
Import Kalman ControllerStateFacts Concrete.

Lemma update_clock_filter_ahead_witness :
  ts_sub 1500 2000 < ZERO /\
  update_clock test_select timed_ctrl 1500 = Return (no_update timed_ctrl, timed_ctrl).
Proof.
  assert (Ht : ts_sub 1500 2000 < ZERO) by (vm_compute; reflexivity).
  split; [exact Ht|].
  exact (update_clock_filter_ahead test_select timed_ctrl 1500 0%nat (mkTimedPeerState 2000)
           true 2000 eq_refl eq_refl Ht).
Defined.

Lemma update_clock_while_slewing_witness :
  exists u c', f_eqb (desired_freq slewing_ctrl) f_zero = false /\
    update_clock test_select slewing_ctrl 3000 = Return (u, c') /\ next_update u = None.
Proof.
  assert (Hu : exists u c', update_clock test_select slewing_ctrl 3000 = Return (u, c'))
    by (do 2 eexists; reflexivity).
  destruct Hu as (u & c' & Hu). exists u, c'.
  split; [reflexivity|]. split; [exact Hu|].
  exact (proj1 (update_clock_while_slewing test_select slewing_ctrl 3000 u c' eq_refl Hu)).
Defined.

Lemma update_clock_no_usable_peers_witness :
  exists u c', update_clock test_select unusable_ctrl 3000 = Return (u, c') /\
    used_peers u = None /\ clock c' = clock unusable_ctrl.
Proof.
  assert (Hu : exists u c', update_clock test_select unusable_ctrl 3000 = Return (u, c'))
    by (do 2 eexists; reflexivity).
  destruct Hu as (u & c' & Hu). exists u, c'. split; [exact Hu|].
  assert (Hall : map_Forall (fun _ v => snd v = false) (peers unusable_ctrl)).
  { intros i v Hv. unfold unusable_ctrl in Hv. cbn [peers] in Hv.
    apply lookup_singleton_Some in Hv as [_ <-]. reflexivity. }
  destruct (update_clock_no_usable_peers test_select unusable_ctrl 3000 u c' eq_refl Hall Hu)
    as (Hn & Hk & _).
  split; [exact Hn | exact Hk].
Defined.

Lemma check_offset_steer_accounting_witness :
  exists c', check_offset_steer test_ctrl0 5 = Return c' /\
    accumulated_steps (timedata c') = accumulated_steps (timedata test_ctrl0) + 5.
Proof.
  assert (Hc : exists c', check_offset_steer test_ctrl0 5 = Return c') by (eexists; reflexivity).
  destruct Hc as [c' Hc]. exists c'. split; [exact Hc|].
  exact (proj1 (proj1 (proj2 (check_offset_steer_accounting test_ctrl0 5)) eq_refl c' Hc)).
Defined.

Lemma accumulated_threshold_per_step_witness :
  Z.abs 5 < 10 /\
  exists c', check_offset_steer accumulated_ctrl 5 = Return c' /\
    accumulated_steps (timedata c') = 105.
Proof.
  split; [lia|].
  assert (Hv : Z.abs (@f_from_seconds Z Z_float 5) < 10) by (vm_compute; reflexivity).
  destruct (accumulated_threshold_per_step accumulated_ctrl 5 10 eq_refl eq_refl eq_refl Hv)
    as (c' & Hc & Ha & _).
  exists c'. split; [exact Hc | exact Ha].
Defined.

Lemma steer_offset_jump_or_slew_witness :
  exists nu c', steer_offset test_ctrl0 1 = Return (nu, c') /\ desired_freq c' = -1.
Proof.
  assert (Hs : exists nu c', steer_offset test_ctrl0 1 = Return (nu, c'))
    by (do 2 eexists; reflexivity).
  destruct Hs as (nu & c' & Hs). exists nu, c'. split; [exact Hs|].
  rewrite (proj2 (proj2 (steer_offset_jump_or_slew test_ctrl0 1 nu c' Hs) eq_refl)).
  reflexivity.
Defined.

Lemma update_desired_poll_min_witness :
  peers test_ctrl0 = ∅ /\ poll_interval (timedata (update_desired_poll test_ctrl0)) = 10.
Proof.
  split; [reflexivity|].
  exact (proj1 (update_desired_poll_min test_ctrl0) eq_refl).
Defined.


Lemma peer_measurement_unusable_no_clock_witness :
  peers unusable_ctrl !! 0%nat = Some (mkTestPeerState 6, false) /\
  exists c', peer_measurement (fun m => m) test_select unusable_ctrl 0%nat 3000 tt
             = Return (no_update c', c') /\ clock c' = clock unusable_ctrl.
Proof.
  split; [reflexivity|].
  destruct (peer_measurement_unusable_no_clock (fun m => m) test_select unusable_ctrl 0%nat 3000 tt
              (or_intror (ex_intro _ (mkTestPeerState 6) eq_refl))) as (c' & Hm & Hk & _).
  exists c'. split; [exact Hm | exact Hk].
Defined.

Lemma step_keeps_peer_flags_witness :
  exists c', step (fun m => m) test_select slewing_ctrl (EvPeerMeasurement 0%nat 3000 tt) = Return c' /\
    snd <$> (peers c' !! 0%nat) = Some true.
Proof.
  assert (Hs : exists c', step (fun m => m) test_select slewing_ctrl
                            (EvPeerMeasurement 0%nat 3000 tt) = Return c')
    by (eexists; reflexivity).
  destruct Hs as [c' Hs]. exists c'. split; [exact Hs|].
  rewrite (step_keeps_peer_flags (fun m => m) test_select slewing_ctrl
             (EvPeerMeasurement 0%nat 3000 tt) c' I Hs 0%nat).
  reflexivity.
Defined.

End ControllerStateExamples.

Module InterfaceNameExamples.
Import PeerRs InterfaceName InterfaceNameFacts Concrete.

Lemma interface_name_first_match_witness :
  exists n, interface_name (E := unit) (Ok sample_interfaces) (mkSocketAddr (V4 2130706433) 123)
            = Ok (Some n) /\
    length n = 16%nat.
Proof.
  assert (Hn : exists n, interface_name (E := unit) (Ok sample_interfaces)
                           (mkSocketAddr (V4 2130706433) 123) = Ok (Some n))
    by (eexists; reflexivity).
  destruct Hn as [n Hn]. exists n. split; [exact Hn|].
  destruct (interface_name_first_match _ _ n Hn) as (pre & i & post & _ & _ & _ & Hlen & _).
  exact Hlen.
Defined.

Lemma to_socket_addr_v4_byte_order_witness :
  to_socket_addr_v4 LittleEndian 0 123 127 0 0 1 =
    mkSocketAddr (ipv4_from_octets [127; 0; 0; 1]) 31488.
Proof.
  exact (proj1 (to_socket_addr_v4_byte_order 0 123 127 0 0 1
                  ltac:(lia) ltac:(lia) ltac:(lia) ltac:(lia) ltac:(lia) ltac:(lia))).
Defined.

End InterfaceNameExamples.
